(** * System-prompt assembly of OpenClaw (src/agents/system-prompt.ts)

    A shallow embedding of [buildAgentSystemPrompt] and of the section
    builders it calls, with the properties the specification states about
    them.

    Conventions of the embedding.
    - A JavaScript string is a [string] that holds its UTF-8 encoding, byte
      for byte.  [trim] removes the white space of ECMAScript in that
      encoding, and [toSorted] orders by UTF-16 code units.  [toLowerCase]
      folds the letters A-Z, which is [String.prototype.toLowerCase] on
      ASCII text ([isAscii]).  It also tells rightly whether a text
      lower-cases to one of the names that the source compares with
      ("gateway", "inlinebuttons", "soul.md", the tools of [toolOrder]):
      the only character outside ASCII whose lower-casing is ASCII is the
      Kelvin sign U+212A, which gives k, and none of these names has a k.
      A statement that depends otherwise on the lower-casing of a caller's
      text assumes that text ASCII.
    - An optional field [f?: T] is an [option T]; a JavaScript truthiness
      test on it is written out ([truthy_opt]).
    - Arrays are lists.  A [Map] or [Set] keyed by strings is an association
      list or a duplicate-free list in insertion order, as JavaScript
      iterates them.
    - What the function takes from its environment (the file system, the
      Nunjucks renderer, the channel registry, the silent-reply token) is a
      [Variable] of the sections below. *)

From Stdlib Require Import String Ascii List Bool Arith Lia.
From Stdlib Require Import Permutation Sorted.
Import ListNotations.

Local Open Scope list_scope.
Local Open Scope string_scope.

(** ** JavaScript string and array primitives *)

Definition chr (n : nat) : ascii := ascii_of_nat n.

(** The one-character strings that cannot be written inside a literal. *)
Definition nl : string := String (chr 10) EmptyString.
Definition dq : string := String (chr 34) EmptyString.

(** [Boolean(s)] for a string: only the empty string is falsy. *)
Definition truthy (s : string) : bool :=
  match s with
  | EmptyString => false
  | String _ _ => true
  end.

(** [Boolean(o)] for an optional string: [undefined] and [""] are falsy. *)
Definition truthy_opt (o : option string) : bool :=
  match o with
  | None => false
  | Some s => truthy s
  end.

(** [Boolean(o)] for an optional boolean. *)
Definition truthy_bool (o : option bool) : bool :=
  match o with
  | Some true => true
  | _ => false
  end.

(** [o ?? d]. *)
Definition orElse {A : Type} (o : option A) (d : A) : A :=
  match o with
  | Some a => a
  | None => d
  end.

(** [arr.filter(Boolean)] on an array of strings. *)
Definition filter_Boolean (ls : list string) : list string := filter truthy ls.

(** [arr.join(sep)]. *)
Definition join (sep : string) (ls : list string) : string := String.concat sep ls.

(** White space removed by [String.prototype.trim]: the WhiteSpace and
    LineTerminator code points of ECMAScript, in UTF-8.  On one byte:
    U+0009 to U+000D and U+0020. *)
Definition is_ws (c : ascii) : bool :=
  let n := nat_of_ascii c in
  Nat.eqb n 32 || (Nat.leb 9 n && Nat.leb n 13).

(** On two bytes: U+00A0 (C2 A0). *)
Definition is_ws2 (c1 c2 : ascii) : bool :=
  Nat.eqb (nat_of_ascii c1) 194 && Nat.eqb (nat_of_ascii c2) 160.

(** On three bytes: U+1680 (E1 9A 80), U+2000 to U+200A (E2 80 80 to
    E2 80 8A), U+2028, U+2029 and U+202F (E2 80 A8, A9, AF), U+205F
    (E2 81 9F), U+3000 (E3 80 80) and U+FEFF (EF BB BF). *)
Definition is_ws3 (c1 c2 c3 : ascii) : bool :=
  let a := nat_of_ascii c1 in
  let b := nat_of_ascii c2 in
  let c := nat_of_ascii c3 in
  (Nat.eqb a 225 && Nat.eqb b 154 && Nat.eqb c 128)
  || (Nat.eqb a 226 && Nat.eqb b 128
      && ((Nat.leb 128 c && Nat.leb c 138)
          || Nat.eqb c 168 || Nat.eqb c 169 || Nat.eqb c 175))
  || (Nat.eqb a 226 && Nat.eqb b 129 && Nat.eqb c 159)
  || (Nat.eqb a 227 && Nat.eqb b 128 && Nat.eqb c 128)
  || (Nat.eqb a 239 && Nat.eqb b 187 && Nat.eqb c 191).

(** The string is one white-space character. *)
Definition is_ws_char (s : string) : bool :=
  match s with
  | String c1 EmptyString => is_ws c1
  | String c1 (String c2 EmptyString) => is_ws2 c1 c2
  | String c1 (String c2 (String c3 EmptyString)) => is_ws3 c1 c2 c3
  | _ => false
  end.

Fixpoint trimStart (s : string) : string :=
  match s with
  | EmptyString => EmptyString
  | String c1 r1 =>
      if is_ws c1 then trimStart r1
      else
        match r1 with
        | EmptyString => s
        | String c2 r2 =>
            if is_ws2 c1 c2 then trimStart r2
            else
              match r2 with
              | EmptyString => s
              | String c3 r3 => if is_ws3 c1 c2 c3 then trimStart r3 else s
              end
        end
  end.

Fixpoint trimEnd (s : string) : string :=
  match s with
  | EmptyString => EmptyString
  | String c r =>
      let kept := String c (trimEnd r) in
      if is_ws_char kept then EmptyString else kept
  end.

Definition trim (s : string) : string := trimEnd (trimStart s).

(** The no-break space U+00A0, which [trim] removes. *)
Definition nbsp : string := String (chr 194) (String (chr 160) EmptyString).

Definition lower_char (c : ascii) : ascii :=
  let n := nat_of_ascii c in
  if Nat.leb 65 n && Nat.leb n 90 then ascii_of_nat (n + 32) else c.

Fixpoint toLowerCase (s : string) : string :=
  match s with
  | EmptyString => EmptyString
  | String c r => String (lower_char c) (toLowerCase r)
  end.

(** The strings of ASCII characters, on which [toLowerCase] is
    [String.prototype.toLowerCase]. *)
Fixpoint isAscii (s : string) : bool :=
  match s with
  | EmptyString => true
  | String c r => Nat.ltb (nat_of_ascii c) 128 && isAscii r
  end.

(** [s.replace(/c/g, d)] for single characters. *)
Fixpoint replaceAll (c d : ascii) (s : string) : string :=
  match s with
  | EmptyString => EmptyString
  | String a r => String (if Ascii.eqb a c then d else a) (replaceAll c d r)
  end.

(** [s.split(c)] for a one-character separator: never empty. *)
Fixpoint split (c : ascii) (s : string) : list string :=
  match s with
  | EmptyString => [EmptyString]
  | String a r =>
      if Ascii.eqb a c then EmptyString :: split c r
      else match split c r with
           | [] => [String a EmptyString]
           | h :: t => String a h :: t
           end
  end.

(** [arr.pop()] read as an expression: the last element, if any. *)
Fixpoint pop (ls : list string) : option string :=
  match ls with
  | [] => None
  | [x] => Some x
  | _ :: r => pop r
  end.

(** [s.includes(h)], which is also what the tests' [toContain] checks. *)
Fixpoint includes (s h : string) : bool :=
  String.prefix h s ||
  match s with
  | EmptyString => false
  | String _ r => includes r h
  end.

(** [arr.includes(x)] and [set.has(x)]. *)
Definition has (ls : list string) (x : string) : bool :=
  existsb (String.eqb x) ls.

(** [new Set(arr)]: first occurrences, in insertion order. *)
Fixpoint newSet_from (seen ls : list string) : list string :=
  match ls with
  | [] => []
  | x :: r => if has seen x then newSet_from seen r
              else x :: newSet_from (x :: seen) r
  end.

Definition newSet (ls : list string) : list string := newSet_from [] ls.

(** The default comparison of [toSorted] orders strings by their UTF-16
    code units.  On the UTF-8 encoding that is the order of the bytes,
    except that a character above U+FFFF (lead byte F0 to F4, a surrogate
    pair in UTF-16) comes before the characters U+E000 to U+FFFF (lead
    byte EE or EF). *)
Definition unit_rank (c : ascii) : nat :=
  let n := nat_of_ascii c in
  if Nat.leb 238 n && Nat.leb n 239 then n + 256 else n.

Fixpoint code_unit_leb (x y : string) : bool :=
  match x, y with
  | EmptyString, _ => true
  | String _ _, EmptyString => false
  | String a r, String b t =>
      if Nat.ltb (unit_rank a) (unit_rank b) then true
      else if Nat.ltb (unit_rank b) (unit_rank a) then false
      else code_unit_leb r t
  end.

(** [arr.toSorted()] with the default comparison. *)
Fixpoint sorted_insert (x : string) (ls : list string) : list string :=
  match ls with
  | [] => [x]
  | y :: r => if code_unit_leb x y then x :: ls else y :: sorted_insert x r
  end.

Definition toSorted (ls : list string) : list string :=
  fold_right sorted_insert [] ls.

(** A [Map<string, string>] in insertion order. *)
Definition StrMap : Type := list (string * string).

Fixpoint map_get (m : StrMap) (k : string) : option string :=
  match m with
  | [] => None
  | (k', v) :: r => if String.eqb k k' then Some v else map_get r k
  end.

Definition map_has (m : StrMap) (k : string) : bool :=
  match map_get m k with
  | Some _ => true
  | None => false
  end.

Fixpoint map_set (m : StrMap) (k v : string) : StrMap :=
  match m with
  | [] => [(k, v)]
  | (k', v') :: r =>
      if String.eqb k k' then (k, v) :: r else (k', v') :: map_set r k v
  end.

(** ** The caller's input record and the template context *)

(** [PromptMode = "full" | "minimal" | "none"]. *)
Inductive PromptMode : Type := full | minimal | none.

Definition PromptMode_text (m : PromptMode) : string :=
  match m with
  | full => "full"
  | minimal => "minimal"
  | none => "none"
  end.

Module RuntimeInfo.
Record t : Type := mk {
  agentId : option string;
  host : option string;
  os : option string;
  arch : option string;
  node : option string;
  model : option string;
  defaultModel : option string;
  channel : option string;
  capabilities : option (list string);
  repoRoot : option string
}.
End RuntimeInfo.

Module Elevated.
(** [defaultLevel] is one of "on", "off", "ask", "full" in the source's type. *)
Record t : Type := mk {
  allowed : bool;
  defaultLevel : string
}.
End Elevated.

Module SandboxInfo.
(** [workspaceAccess] is one of "none", "ro", "rw" in the source's type. *)
Record t : Type := mk {
  enabled : bool;
  workspaceDir : option string;
  workspaceAccess : option string;
  agentWorkspaceMount : option string;
  browserBridgeUrl : option string;
  browserNoVncUrl : option string;
  hostBrowserAllowed : option bool;
  elevated : option Elevated.t
}.
End SandboxInfo.

Module ReactionGuidance.
(** [level: "minimal" | "extensive"]. *)
Inductive Level : Type := level_minimal | level_extensive.
Record t : Type := mk {
  level : Level;
  channel : string
}.
End ReactionGuidance.

Module ContextFile.
(** [EmbeddedContextFile]. *)
Record t : Type := mk {
  path : string;
  content : string
}.
End ContextFile.

Module Params.
(** The argument of [buildAgentSystemPrompt].  [ThinkLevel],
    [ReasoningLevel], [MemoryCitationsMode] and [ResolvedTimeFormat] are
    unions of string literals declared outside this file; they are strings
    here.  [toolSummaries] is a [Record<string, string>]: it is given by
    its entries in the order of [Object.entries] (the keys that are array
    indices in ascending order, then the others in insertion order). *)
Record t : Type := mk {
  workspaceDir : string;
  defaultThinkLevel : option string;
  reasoningLevel : option string;
  extraSystemPrompt : option string;
  ownerNumbers : option (list string);
  reasoningTagHint : option bool;
  toolNames : option (list string);
  toolSummaries : option (list (string * string));
  modelAliasLines : option (list string);
  userTimezone : option string;
  userTime : option string;
  userTimeFormat : option string;
  contextFiles : option (list ContextFile.t);
  skillsPrompt : option string;
  heartbeatPrompt : option string;
  docsPath : option string;
  workspaceNotes : option (list string);
  ttsHint : option string;
  promptMode : option PromptMode;
  runtimeInfo : option RuntimeInfo.t;
  messageToolHints : option (list string);
  sandboxInfo : option SandboxInfo.t;
  reactionGuidance : option ReactionGuidance.t;
  memoryCitationsMode : option string
}.
End Params.

Module TemplateContext.
(** The object handed to the template engine. *)
Record t : Type := mk {
  workspaceDir : string;
  docsPath : option string;
  sandboxEnabled : option bool;
  sandboxWorkspaceDir : option string;
  sandboxAgentWorkspaceMount : option string;
  hasGateway : bool;
  isMinimal : bool;
  promptMode : string;
  ownerLine : option string;
  userTimezone : option string;
  heartbeatPrompt : option string;
  reasoningLevel : option string;
  defaultThinkLevel : option string;
  modelAliasLines : option (list string);
  workspaceNotes : list string;
  extraSystemPrompt : option string;
  reactionGuidance : option ReactionGuidance.t;
  runtimeInfo : option RuntimeInfo.t;
  contextFiles : option (list ContextFile.t);
  messageChannelOptions : string;
  inlineButtonsEnabled : bool;
  runtimeChannel : option string;
  ttsHint : option string;
  messageToolHints : option (list string);
  toolList : string;
  execToolName : string;
  processToolName : string;
  readToolName : string;
  availableTools : list string
}.
End TemplateContext.

(** What a call does: it returns a string or throws. *)
Inductive Completion : Type :=
| Returns (s : string)
| Throws (e : string).

(** What [fs.readFileSync(path, "utf-8")] does: it returns the content or
    throws an error with a code ("ENOENT", "EACCES", "EISDIR", ...). *)
Inductive ReadResult : Type :=
| FileContent (s : string)
| ReadError (code : string).

(** ** The section builders *)

Definition IDENTITY_LINE : string :=
  "You are a personal assistant running inside OpenClaw.".

Definition buildSkillsSection
    (skillsPrompt : option string) (isMinimal : bool) (readToolName : string)
  : list string :=
  if isMinimal then []
  else
    let trimmed := option_map trim skillsPrompt in
    if negb (truthy_opt trimmed) then []
    else
      [ "## Skills (mandatory)";
        "Before replying: scan <available_skills> <description> entries.";
        "- If exactly one skill clearly applies: read its SKILL.md at <location> with `"
          ++ readToolName ++ "`, then follow it.";
        "- If multiple could apply: choose the most specific one, then read/follow it.";
        "- If none clearly apply: do not read any SKILL.md.";
        "Constraints: never read more than one skill up front; only read after selecting.";
        orElse trimmed "";
        "" ].

Definition buildMemorySection
    (isMinimal : bool) (availableTools : list string)
    (citationsMode : option string) : list string :=
  if isMinimal then []
  else if negb (has availableTools "memory_search")
          && negb (has availableTools "memory_get") then []
  else
    ([ "## Memory Recall";
       "Before answering anything about prior work, decisions, dates, people, preferences, or todos: run memory_search on MEMORY.md + memory/*.md; then use memory_get to pull only the needed lines. If low confidence after search, say you checked." ]
     ++ [ match citationsMode with
          | Some "off" =>
              "Citations are disabled: do not mention file paths or line numbers in replies unless the user explicitly asks."
          | _ =>
              "Citations: include Source: <path#line> when it helps the user verify memory snippets."
          end ]
     ++ [ "" ])%list.

Definition buildUserIdentitySection
    (ownerLine : option string) (isMinimal : bool) : list string :=
  if negb (truthy_opt ownerLine) || isMinimal then []
  else [ "## User Identity"; orElse ownerLine ""; "" ].

Definition buildTimeSection (userTimezone : option string) : list string :=
  if negb (truthy_opt userTimezone) then []
  else
    [ "## Current Date & Time";
      "Time zone: " ++ orElse userTimezone "";
      "If you need the current date, time, or day of week, run session_status (üìä session_status).";
      "" ].

Definition buildReplyTagsSection (isMinimal : bool) : list string :=
  if isMinimal then []
  else
    [ "## Reply Tags";
      "To request a native reply/quote on supported surfaces, include one tag in your reply:";
      "- [[reply_to_current]] replies to the triggering message.";
      "- [[reply_to:<id>]] replies to a specific message id when you have it.";
      "Whitespace inside the tag is allowed (e.g. [[ reply_to_current ]] / [[ reply_to: 123 ]]).";
      "Tags are stripped before sending; support depends on the current channel config.";
      "" ].

Definition buildVoiceSection (isMinimal : bool) (ttsHint : option string)
  : list string :=
  if isMinimal then []
  else
    let hint := option_map trim ttsHint in
    if negb (truthy_opt hint) then []
    else [ "## Voice (TTS)"; orElse hint ""; "" ].

Definition buildDocsSection
    (docsPath : option string) (isMinimal : bool) (readToolName : string)
  : list string :=
  let docsPath := option_map trim docsPath in
  if negb (truthy_opt docsPath) || isMinimal then []
  else
    [ "## Documentation";
      "OpenClaw docs: " ++ orElse docsPath "";
      "Mirror: https://docs.molt.bot";
      "Source: https://github.com/moltbot/moltbot";
      "Community: https://discord.com/invite/clawd";
      "Find new skills: https://clawdhub.com";
      "For OpenClaw behavior, commands, config, or architecture: consult local docs first.";
      "When diagnosing issues, run `moltbot status` yourself when possible; only ask the user if you lack access (e.g., sandboxed).";
      "" ].

Definition buildBasicIdentitySection : list string :=
  [ IDENTITY_LINE; "" ].

Definition buildToolingSection
    (toolLines : list string) (execToolName processToolName : string)
    (isMinimal : bool) : list string :=
  if isMinimal then []
  else
    let toolContent :=
      if Nat.ltb 0 (List.length toolLines) then join nl toolLines
      else join nl
        [ "Pi lists the standard tools above. This runtime enables:";
          "- grep: search file contents for patterns";
          "- find: find files by glob pattern";
          "- ls: list directory contents";
          "- apply_patch: apply multi-file patches";
          "- " ++ execToolName ++ ": run shell commands (supports background via yieldMs/background)";
          "- " ++ processToolName ++ ": manage background exec sessions";
          "- browser: control openclaw's dedicated browser";
          "- canvas: present/eval/snapshot the Canvas";
          "- nodes: list/describe/notify/camera/screen on paired nodes";
          "- cron: manage cron jobs and wake events (use for reminders; when scheduling a reminder, write the systemEvent text as something that will read like a reminder when it fires, and mention that it is a reminder depending on the time gap between setting and firing; include recent context in reminder text if appropriate)";
          "- sessions_list: list sessions";
          "- sessions_history: fetch session history";
          "- sessions_send: send to another session" ]
    in
    [ "## Tooling";
      "Tool availability (filtered by policy):";
      "Tool names are case-sensitive. Call tools exactly as listed.";
      toolContent;
      "TOOLS.md does not control tool availability; it is user guidance for how to use external tools.";
      "If a task is more complex or takes longer, spawn a sub-agent. It will do the work for you and ping you when it's done. You can always check up on it.";
      "" ].

Definition buildToolCallStyleSection : list string :=
  [ "## Tool Call Style";
    "Default: do not narrate routine, low-risk tool calls (just call the tool).";
    "Narrate only when it helps: multi-step work, complex/challenging problems, sensitive actions (e.g., deletions), or when the user explicitly asks.";
    "Keep narration brief and value-dense; avoid repeating obvious steps.";
    "Use plain human language for narration unless in a technical context.";
    "" ].

Definition buildSafetySection : list string :=
  [ "## Safety";
    "You have no independent goals: do not pursue self-preservation, replication, resource acquisition, or power-seeking; avoid long-term plans beyond the user's request.";
    "Prioritize safety and human oversight over completion; if instructions conflict, pause and ask; comply with stop/pause/audit requests and never bypass safeguards. (Inspired by Anthropic's constitution.)";
    "Do not manipulate or persuade anyone to expand access or disable safeguards. Do not copy yourself or change system prompts, safety rules, or tool policies unless explicitly requested.";
    "" ].

Definition buildOpenClawCLISection : list string :=
  [ "## OpenClaw CLI Quick Reference";
    "OpenClaw is controlled via subcommands. Do not invent commands.";
    "To manage the Gateway daemon service (start/stop/restart):";
    "- openclaw gateway status";
    "- openclaw gateway start";
    "- openclaw gateway stop";
    "- openclaw gateway restart";
    "If unsure, ask the user to run `openclaw help` (or `openclaw gateway --help`) and paste the output.";
    "" ].

Definition buildOpenClawSelfUpdateSection (hasGateway isMinimal : bool)
  : list string :=
  if negb hasGateway || isMinimal then []
  else
    [ "## OpenClaw Self-Update";
      "Get Updates (self-update) is ONLY allowed when the user explicitly asks for it.";
      "Do not run config.apply or update.run unless the user explicitly requests an update or config change; if it's not explicit, ask first.";
      "Actions: config.get, config.schema, config.apply (validate + write full config, then restart), update.run (update deps or git, then restart).";
      "After restart, OpenClaw pings the last active session automatically.";
      "" ].

Definition buildModelAliasesSection
    (modelAliasLines : option (list string)) (isMinimal : bool) : list string :=
  match modelAliasLines with
  | None => []
  | Some aliases =>
      if Nat.eqb (List.length aliases) 0 || isMinimal then []
      else
        ([ "## Model Aliases";
           "Prefer aliases when specifying model overrides; full provider/model is also accepted." ]
         ++ aliases ++ [ "" ])%list
  end.

Definition buildWorkspaceSection
    (workspaceDir : string) (workspaceNotes : list string) : list string :=
  ([ "## Workspace";
     ("Your working directory is: " ++ workspaceDir)%string;
     "Treat this directory as the single global workspace for file operations unless explicitly instructed otherwise." ]
   ++ workspaceNotes ++ [ "" ])%list.

(** [cond ? [line] : []], for the conditional [lines.push(line)]. *)
Definition pushIf (cond : bool) (line : string) : list string :=
  if cond then [line] else [].

Definition buildSandboxSection (params : SandboxInfo.t) : list string :=
  if negb (SandboxInfo.enabled params) then []
  else
    let lines :=
      ([ "## Sandbox";
         "You are running in a sandboxed runtime (tools execute in Docker).";
         "Some tools may be unavailable due to sandbox policy.";
         "Sub-agents stay sandboxed (no elevated/host access). Need outside-sandbox read/write? Don't spawn; ask first." ]
       ++ pushIf (truthy_opt (SandboxInfo.workspaceDir params))
            ("Sandbox workspace: " ++ orElse (SandboxInfo.workspaceDir params) "")%string
       ++ pushIf (truthy_opt (SandboxInfo.workspaceAccess params))
            ("Agent workspace access: "
             ++ orElse (SandboxInfo.workspaceAccess params) ""
             ++ (if truthy_opt (SandboxInfo.agentWorkspaceMount params)
                 then " (mounted at "
                      ++ orElse (SandboxInfo.agentWorkspaceMount params) "" ++ ")"
                 else ""))%string
       ++ pushIf (truthy_opt (SandboxInfo.browserBridgeUrl params))
            "Sandbox browser: enabled."
       ++ pushIf (truthy_opt (SandboxInfo.browserNoVncUrl params))
            ("Sandbox browser observer (noVNC): "
             ++ orElse (SandboxInfo.browserNoVncUrl params) "")%string
       ++ match SandboxInfo.hostBrowserAllowed params with
          | Some true => [ "Host browser control: allowed." ]
          | Some false => [ "Host browser control: blocked." ]
          | None => []
          end
       ++ match SandboxInfo.elevated params with
          | Some e =>
              if Elevated.allowed e then
                [ "Elevated exec is available for this session.";
                  "User can toggle with /elevated on|off|ask|full.";
                  "You may also send /elevated on|off|ask|full when needed.";
                  ("Current elevated level: " ++ Elevated.defaultLevel e
                   ++ " (ask runs exec on host with approvals; full auto-approves).")%string ]
              else []
          | None => []
          end)%list
    in
    (filter_Boolean lines ++ [ "" ])%list.

Definition buildReactionsSection (reactionGuidance : option ReactionGuidance.t)
  : list string :=
  match reactionGuidance with
  | None => []
  | Some g =>
      let channel := ReactionGuidance.channel g in
      let guidanceText :=
        match ReactionGuidance.level g with
        | ReactionGuidance.level_minimal =>
            join nl
              [ "Reactions are enabled for " ++ channel ++ " in MINIMAL mode.";
                "React ONLY when truly relevant:";
                "- Acknowledge important user requests or confirmations";
                "- Express genuine sentiment (humor, appreciation) sparingly";
                "- Avoid reacting to routine messages or your own replies";
                "Guideline: at most 1 reaction per 5-10 exchanges." ]
        | ReactionGuidance.level_extensive =>
            join nl
              [ "Reactions are enabled for " ++ channel ++ " in EXTENSIVE mode.";
                "Feel free to react liberally:";
                "- Acknowledge messages with appropriate emojis";
                "- Express sentiment and personality through reactions";
                "- React to interesting content, humor, or notable events";
                "- Use reactions to confirm understanding or agreement";
                "Guideline: react whenever it feels natural." ]
        end
      in
      [ "## Reactions"; guidanceText; "" ]
  end.

Definition buildReasoningFormatSection (reasoningHint : option string)
  : list string :=
  if negb (truthy_opt reasoningHint) then []
  else [ "## Reasoning Format"; orElse reasoningHint ""; "" ].

Definition SOUL_LINE : string :=
  "If SOUL.md is present, embody its persona and tone. Avoid stiff, generic replies; follow its guidance unless higher-priority instructions override it.".

(** The callback of [contextFiles.some(...)]. *)
Definition isSoulFile (file : ContextFile.t) : bool :=
  let normalizedPath := replaceAll (chr 92) "/"%char (trim (ContextFile.path file)) in
  let baseName := orElse (pop (split "/"%char normalizedPath)) normalizedPath in
  String.eqb (toLowerCase baseName) "soul.md".

Definition buildProjectContextSection
    (contextFiles : option (list ContextFile.t)) : list string :=
  match contextFiles with
  | None => []
  | Some [] => []
  | Some files =>
      let hasSoulFile := existsb isSoulFile files in
      ([ "# Project Context";
         "";
         "The following project context files have been loaded:" ]
       ++ pushIf hasSoulFile SOUL_LINE
       ++ [ "" ]
       ++ flat_map
            (fun file =>
               [ ("## " ++ ContextFile.path file)%string; "";
                 ContextFile.content file; "" ])
            files)%list
  end.

Definition buildHeartbeatsSection
    (heartbeatPrompt : option string) (isMinimal : bool) : list string :=
  if isMinimal then []
  else
    let promptLine :=
      if truthy_opt heartbeatPrompt
      then "Heartbeat prompt: " ++ orElse heartbeatPrompt ""
      else "Heartbeat prompt: (configured)" in
    [ "## Heartbeats";
      promptLine;
      "If you receive a heartbeat poll (a user message matching the heartbeat prompt above), and there is nothing that needs attention, reply exactly:";
      "HEARTBEAT_OK";
      "OpenClaw treats a leading/trailing " ++ dq ++ "HEARTBEAT_OK" ++ dq
        ++ " as a heartbeat ack (and may discard it).";
      "If something needs attention, do NOT include " ++ dq ++ "HEARTBEAT_OK" ++ dq
        ++ "; reply with the alert text instead.";
      "" ].

Definition buildRuntimeSection
    (runtimeLine reasoningLevel : string) (_defaultThinkLevel : option string)
  : list string :=
  [ "## Runtime";
    runtimeLine;
    "Reasoning: " ++ reasoningLevel
      ++ " (hidden unless on/stream). Toggle /reasoning; /status shows Reasoning when enabled." ].

Definition contextHeader (promptMode : PromptMode) : string :=
  match promptMode with
  | minimal => "## Subagent Context"
  | _ => "## Group Chat Context"
  end.

Definition buildExtraSystemPromptSection
    (extraSystemPrompt : option string) (promptMode : PromptMode) : list string :=
  if negb (truthy_opt extraSystemPrompt) then []
  else [ contextHeader promptMode; orElse extraSystemPrompt ""; "" ].

(** [cond ? text : ""] on an optional string field. *)
Definition whenSet (o : option string) (f : string -> string) : string :=
  if truthy_opt o then f (orElse o "") else "".

Definition buildRuntimeLine
    (runtimeInfo : option RuntimeInfo.t) (runtimeChannel : option string)
    (runtimeCapabilities : list string) (defaultThinkLevel : option string)
  : string :=
  let field (f : RuntimeInfo.t -> option string) : option string :=
    match runtimeInfo with
    | Some r => f r
    | None => None
    end in
  "Runtime: " ++
  join " | "
    (filter_Boolean
       [ whenSet (field RuntimeInfo.agentId) (fun v => "agent=" ++ v);
         whenSet (field RuntimeInfo.host) (fun v => "host=" ++ v);
         whenSet (field RuntimeInfo.repoRoot) (fun v => "repo=" ++ v);
         if truthy_opt (field RuntimeInfo.os)
         then "os=" ++ orElse (field RuntimeInfo.os) ""
              ++ whenSet (field RuntimeInfo.arch) (fun a => " (" ++ a ++ ")")
         else whenSet (field RuntimeInfo.arch) (fun a => "arch=" ++ a);
         whenSet (field RuntimeInfo.node) (fun v => "node=" ++ v);
         whenSet (field RuntimeInfo.model) (fun v => "model=" ++ v);
         whenSet (field RuntimeInfo.defaultModel) (fun v => "default_model=" ++ v);
         whenSet runtimeChannel (fun v => "channel=" ++ v);
         if truthy_opt runtimeChannel
         then "capabilities=" ++
              (if Nat.ltb 0 (List.length runtimeCapabilities)
               then join "," runtimeCapabilities else "none")
         else "";
         "thinking=" ++ orElse defaultThinkLevel "off" ]).

(** ** The assembler and what it takes from its environment *)

Section Assembler.

(** [SILENT_REPLY_TOKEN] of auto-reply/tokens.js. *)
Variable SILENT_REPLY_TOKEN : string.
(** [listDeliverableMessageChannels()] of utils/message-channel.js. *)
Variable listDeliverableMessageChannels : list string.
(** [fs.readFileSync(path, "utf-8")] and [path.join] of Node; on strings
    [path.join] always returns. *)
Variable readFileSync : string -> ReadResult.
Variable path_join : string -> string -> string.
(** [nunjucks.renderString] after [configure({ autoescape: false })]. *)
Variable renderString : string -> TemplateContext.t -> Completion.

Definition readSystemTemplateSync (agentDir : string) : option string :=
  let templatePath := path_join agentDir "SYSTEM.md" in
  match readFileSync templatePath with
  | FileContent s => Some s
  | ReadError _ => None
  end.

Definition renderTemplate (template : string) (context : TemplateContext.t)
  : Completion :=
  renderString template context.

Definition buildMessagingSection
    (isMinimal : bool) (availableTools : list string)
    (messageChannelOptions : string) (inlineButtonsEnabled : bool)
    (runtimeChannel : option string) (messageToolHints : option (list string))
  : list string :=
  if isMinimal then []
  else
    [ "## Messaging";
      "- Reply in current session ‚Üí automatically routes to the source channel (Signal, Telegram, etc.)";
      "- Cross-session messaging ‚Üí use sessions_send(sessionKey, message)";
      "- Never use exec/curl for provider messaging; OpenClaw handles all routing internally.";
      if has availableTools "message" then
        join nl
          (filter_Boolean
             ([ "";
                "### message tool";
                "- Use `message` for proactive sends + channel actions (polls, reactions, etc.).";
                "- For `action=send`, include `to` and `message`.";
                ("- If multiple channels are configured, pass `channel` ("
                 ++ messageChannelOptions ++ ").")%string;
                ("- If you use `message` (`action=send`) to deliver your user-visible reply, respond with ONLY: "
                 ++ SILENT_REPLY_TOKEN ++ " (avoid duplicate replies).")%string;
                if inlineButtonsEnabled
                then "- Inline buttons supported. Use `action=send` with `buttons=[[{text,callback_data}]]` (callback_data routes back as a user message)."
                else whenSet runtimeChannel (fun c =>
                       "- Inline buttons not enabled for " ++ c
                       ++ ". If you need them, ask to set " ++ c
                       ++ ".capabilities.inlineButtons (" ++ dq ++ "dm" ++ dq ++ "|"
                       ++ dq ++ "group" ++ dq ++ "|" ++ dq ++ "all" ++ dq ++ "|"
                       ++ dq ++ "allowlist" ++ dq ++ ").")%string ]
              ++ orElse messageToolHints [])%list)
      else "";
      "" ].

Definition buildSilentRepliesSection (isMinimal : bool) : list string :=
  if isMinimal then []
  else
    [ "## Silent Replies";
      "When you have nothing to say, respond with ONLY: " ++ SILENT_REPLY_TOKEN;
      "";
      "‚ö†Ô∏è Rules:";
      "- It must be your ENTIRE message ‚Äî nothing else";
      "- Never append it to an actual response (never include " ++ dq
        ++ SILENT_REPLY_TOKEN ++ dq ++ " in real replies)";
      "- Never wrap it in markdown or code blocks";
      "";
      "‚ùå Wrong: " ++ dq ++ "Here's help... " ++ SILENT_REPLY_TOKEN ++ dq;
      "‚ùå Wrong: " ++ dq ++ SILENT_REPLY_TOKEN ++ dq;
      "‚úÖ Right: " ++ SILENT_REPLY_TOKEN;
      "" ].

(** *** The locals of [buildAgentSystemPrompt], as functions of its argument *)

Definition coreToolSummaries : StrMap :=
  [ ("read", "Read file contents");
    ("write", "Create or overwrite files");
    ("edit", "Make precise edits to files");
    ("apply_patch", "Apply multi-file patches");
    ("grep", "Search file contents for patterns");
    ("find", "Find files by glob pattern");
    ("ls", "List directory contents");
    ("exec", "Run shell commands (pty available for TTY-required CLIs)");
    ("process", "Manage background exec sessions");
    ("web_search", "Search the web (Brave API)");
    ("web_fetch", "Fetch and extract readable content from a URL");
    ("browser", "Control web browser");
    ("canvas", "Present/eval/snapshot the Canvas");
    ("nodes", "List/describe/notify/camera/screen on paired nodes");
    ("cron", "Manage cron jobs and wake events (use for reminders; when scheduling a reminder, write the systemEvent text as something that will read like a reminder when it fires, and mention that it is a reminder depending on the time gap between setting and firing; include recent context in reminder text if appropriate)");
    ("message", "Send messages and channel actions");
    ("gateway", "Restart, apply config, or run updates on the running OpenClaw process");
    ("agents_list", "List agent ids allowed for sessions_spawn");
    ("sessions_list", "List other sessions (incl. sub-agents) with filters/last");
    ("sessions_history", "Fetch history for another session/sub-agent");
    ("sessions_send", "Send a message to another session/sub-agent");
    ("sessions_spawn", "Spawn a sub-agent session");
    ("session_status", "Show a /status-equivalent status card (usage + time + Reasoning/Verbose/Elevated); use for model-use questions (üìä session_status); optional per-session model override");
    ("image", "Analyze an image with the configured image model") ].

Definition toolOrder : list string :=
  [ "read"; "write"; "edit"; "apply_patch"; "grep"; "find"; "ls"; "exec";
    "process"; "web_search"; "web_fetch"; "browser"; "canvas"; "nodes";
    "cron"; "message"; "gateway"; "agents_list"; "sessions_list";
    "sessions_history"; "sessions_send"; "session_status"; "image" ].

(** [coreToolSummaries] is a plain object: a key that it does not own is
    looked up on [Object.prototype].  The members found there, as a template
    literal shows them under Node. *)
Definition objectPrototypeMembers : StrMap :=
  [ ("constructor", "function Object() { [native code] }");
    ("__defineGetter__", "function __defineGetter__() { [native code] }");
    ("__defineSetter__", "function __defineSetter__() { [native code] }");
    ("hasOwnProperty", "function hasOwnProperty() { [native code] }");
    ("__lookupGetter__", "function __lookupGetter__() { [native code] }");
    ("__lookupSetter__", "function __lookupSetter__() { [native code] }");
    ("isPrototypeOf", "function isPrototypeOf() { [native code] }");
    ("propertyIsEnumerable", "function propertyIsEnumerable() { [native code] }");
    ("toString", "function toString() { [native code] }");
    ("valueOf", "function valueOf() { [native code] }");
    ("__proto__", "[object Object]");
    ("toLocaleString", "function toLocaleString() { [native code] }") ].

(** [coreToolSummaries[tool]], shown as text. *)
Definition coreToolSummary (tool : string) : option string :=
  match map_get coreToolSummaries tool with
  | Some s => Some s
  | None => map_get objectPrototypeMembers tool
  end.

Variable params : Params.t.

Definition rawToolNames : list string :=
  map trim (orElse (Params.toolNames params) []).

Definition canonicalToolNames : list string := filter_Boolean rawToolNames.

(** The loop that keeps the caller's first casing of each tool name. *)
Definition canonicalByNormalized : StrMap :=
  fold_left
    (fun m name =>
       let normalized := toLowerCase name in
       if negb (map_has m normalized) then map_set m normalized name else m)
    canonicalToolNames [].

Definition resolveToolName (normalized : string) : string :=
  orElse (map_get canonicalByNormalized normalized) normalized.

Definition normalizedTools : list string := map toLowerCase canonicalToolNames.

Definition availableTools : list string := newSet normalizedTools.

Definition externalToolSummaries : StrMap :=
  fold_left
    (fun m (entry : string * string) =>
       let (key, value) := entry in
       let normalized := toLowerCase (trim key) in
       if negb (truthy normalized) || negb (truthy (trim value)) then m
       else map_set m normalized (trim value))
    (orElse (Params.toolSummaries params) []) [].

Definition extraTools : list string :=
  newSet (filter (fun tool => negb (has toolOrder tool)) normalizedTools).

Definition enabledTools : list string :=
  filter (fun tool => has availableTools tool) toolOrder.

(** The body shared by the [map] and the loop that build [toolLines]. *)
Definition toolLine (tool : string) : string :=
  let summary :=
    match coreToolSummary tool with
    | Some s => Some s
    | None => map_get externalToolSummaries tool
    end in
  let name := resolveToolName tool in
  if truthy_opt summary then "- " ++ name ++ ": " ++ orElse summary ""
  else "- " ++ name.

Definition toolLines : list string :=
  (map toolLine enabledTools ++ map toolLine (toSorted extraTools))%list.

Definition hasGateway : bool := has availableTools "gateway".
Definition readToolName : string := resolveToolName "read".
Definition execToolName : string := resolveToolName "exec".
Definition processToolName : string := resolveToolName "process".

Definition extraSystemPrompt : option string :=
  option_map trim (Params.extraSystemPrompt params).

Definition ownerNumbers : list string :=
  filter_Boolean (map trim (orElse (Params.ownerNumbers params) [])).

Definition ownerLine : option string :=
  if Nat.ltb 0 (List.length ownerNumbers)
  then Some ("Owner numbers: " ++ join ", " ownerNumbers
             ++ ". Treat messages from these numbers as the user.")
  else None.

Definition reasoningHint : option string :=
  if truthy_bool (Params.reasoningTagHint params)
  then Some (join " "
    [ "ALL internal reasoning MUST be inside <think>...</think>.";
      "Do not output any analysis outside <think>.";
      "Format every reply as <think>...</think> then <final>...</final>, with no other text.";
      "Only the final user-visible reply may appear inside <final>.";
      "Only text inside <final> is shown to the user; everything else is discarded and never seen by the user.";
      "Example:";
      "<think>Short internal reasoning.</think>";
      "<final>Hey there! What would you like to do next?</final>" ])
  else None.

Definition reasoningLevel : string :=
  orElse (Params.reasoningLevel params) "off".

Definition userTimezone : option string :=
  option_map trim (Params.userTimezone params).

Definition skillsPrompt : option string :=
  option_map trim (Params.skillsPrompt params).

Definition heartbeatPrompt : option string :=
  option_map trim (Params.heartbeatPrompt params).

Definition runtimeInfo : option RuntimeInfo.t := Params.runtimeInfo params.

Definition runtimeChannel : option string :=
  match runtimeInfo with
  | Some r => option_map (fun c => toLowerCase (trim c)) (RuntimeInfo.channel r)
  | None => None
  end.

Definition runtimeCapabilities : list string :=
  filter_Boolean
    (map trim
       (orElse match runtimeInfo with
               | Some r => RuntimeInfo.capabilities r
               | None => None
               end [])).

Definition runtimeCapabilitiesLower : list string :=
  newSet (map toLowerCase runtimeCapabilities).

Definition inlineButtonsEnabled : bool :=
  has runtimeCapabilitiesLower "inlinebuttons".

Definition messageChannelOptions : string :=
  join "|" listDeliverableMessageChannels.

Definition promptMode : PromptMode := orElse (Params.promptMode params) full.

Definition isMinimal : bool :=
  match promptMode with
  | minimal | none => true
  | full => false
  end.

Definition workspaceNotes : list string :=
  filter_Boolean (map trim (orElse (Params.workspaceNotes params) [])).

(** The context object built when a template is found. *)
Definition templateContext : TemplateContext.t :=
  {| TemplateContext.workspaceDir := Params.workspaceDir params;
     TemplateContext.docsPath := Params.docsPath params;
     TemplateContext.sandboxEnabled :=
       option_map SandboxInfo.enabled (Params.sandboxInfo params);
     TemplateContext.sandboxWorkspaceDir :=
       match Params.sandboxInfo params with
       | Some s => SandboxInfo.workspaceDir s
       | None => None
       end;
     TemplateContext.sandboxAgentWorkspaceMount :=
       match Params.sandboxInfo params with
       | Some s => SandboxInfo.agentWorkspaceMount s
       | None => None
       end;
     TemplateContext.hasGateway := hasGateway;
     TemplateContext.isMinimal := isMinimal;
     TemplateContext.promptMode := PromptMode_text promptMode;
     TemplateContext.ownerLine := ownerLine;
     TemplateContext.userTimezone := userTimezone;
     TemplateContext.heartbeatPrompt := heartbeatPrompt;
     TemplateContext.reasoningLevel := Params.reasoningLevel params;
     TemplateContext.defaultThinkLevel := Params.defaultThinkLevel params;
     TemplateContext.modelAliasLines := Params.modelAliasLines params;
     TemplateContext.workspaceNotes := workspaceNotes;
     TemplateContext.extraSystemPrompt := Params.extraSystemPrompt params;
     TemplateContext.reactionGuidance := Params.reactionGuidance params;
     TemplateContext.runtimeInfo := Params.runtimeInfo params;
     TemplateContext.contextFiles := Params.contextFiles params;
     TemplateContext.messageChannelOptions := messageChannelOptions;
     TemplateContext.inlineButtonsEnabled := inlineButtonsEnabled;
     TemplateContext.runtimeChannel := runtimeChannel;
     TemplateContext.ttsHint := Params.ttsHint params;
     TemplateContext.messageToolHints := Params.messageToolHints params;
     TemplateContext.toolList := join nl toolLines;
     TemplateContext.execToolName := execToolName;
     TemplateContext.processToolName := processToolName;
     TemplateContext.readToolName := readToolName;
     TemplateContext.availableTools := availableTools |}.

Definition noSandbox : SandboxInfo.t :=
  SandboxInfo.mk false None None None None None None None.

(** The array literal that initialises [lines]. *)
Definition initialLines : list string :=
  ([ IDENTITY_LINE; "" ]
   ++ buildToolingSection toolLines execToolName processToolName isMinimal
   ++ buildToolCallStyleSection
   ++ buildSafetySection
   ++ buildOpenClawCLISection
   ++ buildOpenClawSelfUpdateSection hasGateway isMinimal
   ++ buildModelAliasesSection (Params.modelAliasLines params) isMinimal
   ++ buildSkillsSection skillsPrompt isMinimal readToolName
   ++ buildMemorySection isMinimal availableTools
        (Params.memoryCitationsMode params)
   ++ buildWorkspaceSection (Params.workspaceDir params) workspaceNotes
   ++ buildDocsSection (Params.docsPath params) isMinimal readToolName
   ++ buildSandboxSection (orElse (Params.sandboxInfo params) noSandbox)
   ++ buildUserIdentitySection ownerLine isMinimal
   ++ buildTimeSection userTimezone
   ++ [ "## Workspace Files (injected)";
        "These user-editable files are loaded by OpenClaw and included below in Project Context.";
        "" ]
   ++ buildReplyTagsSection isMinimal
   ++ buildMessagingSection isMinimal availableTools messageChannelOptions
        inlineButtonsEnabled runtimeChannel (Params.messageToolHints params)
   ++ buildVoiceSection isMinimal (Params.ttsHint params)
   ++ buildProjectContextSection (Params.contextFiles params)
   ++ buildExtraSystemPromptSection extraSystemPrompt promptMode)%list.

(** [lines] after the pushes that follow, as it is when it is joined. *)
Definition lines : list string :=
  (initialLines
   ++ (if truthy_opt extraSystemPrompt
       then [ contextHeader promptMode; orElse extraSystemPrompt ""; "" ]
       else [])
   ++ buildReactionsSection (Params.reactionGuidance params)
   ++ buildReasoningFormatSection reasoningHint
   ++ (if negb isMinimal then buildSilentRepliesSection isMinimal else [])
   ++ (if negb isMinimal then buildHeartbeatsSection heartbeatPrompt isMinimal
       else [])
   ++ buildRuntimeSection
        (buildRuntimeLine runtimeInfo runtimeChannel runtimeCapabilities
           (Params.defaultThinkLevel params))
        reasoningLevel (Params.defaultThinkLevel params))%list.

Definition buildAgentSystemPrompt : Completion :=
  let template := readSystemTemplateSync (Params.workspaceDir params) in
  if truthy_opt template then
    renderTemplate (orElse template "") templateContext
  else
    match promptMode with
    | none => Returns IDENTITY_LINE
    | _ => Returns (join nl (filter_Boolean lines))
    end.

End Assembler.

(** ** Occurrences, and decidable checks on them *)

(** [h] occurs in [s]: the proposition that [includes] decides. *)
Definition occurs (h s : string) : Prop := exists a b, s = a ++ h ++ b.

(** [B] is a run of consecutive entries of [L]. *)
Definition block (B L : list string) : Prop :=
  exists A C, L = (A ++ B ++ C)%list.

(** [E] is the end of [L]. *)
Definition ends_in (E L : list string) : Prop :=
  exists A, L = (A ++ E)%list.


(** [x.endsWith(t)]. *)
Fixpoint ends_with (x t : string) : bool :=
  String.eqb x t ||
  match x with
  | EmptyString => false
  | String _ r => ends_with r t
  end.






(** ** Vocabulary of the statements *)

(** The default path is taken: the template lookup gave nothing truthy. *)
Definition noOverride
    (readFileSync : string -> ReadResult) (path_join : string -> string -> string)
    (params : Params.t) : Prop :=
  truthy_opt (readSystemTemplateSync readFileSync path_join
                (Params.workspaceDir params)) = false.









(** The text of a section as the prompt shows it. *)
Definition sectionText (section : list string) : string :=
  join nl (filter_Boolean section).

(** An entry that neither holds nor borders a blank line. *)
Definition blank_free (l : string) : bool :=
  negb (includes l (nl ++ nl)) && negb (String.prefix nl l) && negb (ends_with l nl).

(** The Tooling section when no tool name is given, after the identity line. *)
Definition FALLBACK_TOOLING : list string :=
  [ "You are a personal assistant running inside OpenClaw.";
    "## Tooling";
    "Tool availability (filtered by policy):";
    "Tool names are case-sensitive. Call tools exactly as listed.";
    "Pi lists the standard tools above. This runtime enables:";
    "- grep: search file contents for patterns";
    "- find: find files by glob pattern";
    "- ls: list directory contents";
    "- apply_patch: apply multi-file patches";
    "- exec: run shell commands (supports background via yieldMs/background)";
    "- process: manage background exec sessions";
    "- browser: control openclaw's dedicated browser";
    "- canvas: present/eval/snapshot the Canvas";
    "- nodes: list/describe/notify/camera/screen on paired nodes";
    "- cron: manage cron jobs and wake events (use for reminders; when scheduling a reminder, write the systemEvent text as something that will read like a reminder when it fires, and mention that it is a reminder depending on the time gap between setting and firing; include recent context in reminder text if appropriate)";
    "- sessions_list: list sessions";
    "- sessions_history: fetch session history";
    "- sessions_send: send to another session";
    "TOOLS.md does not control tool availability; it is user guidance for how to use external tools.";
    "If a task is more complex or takes longer, spawn a sub-agent. It will do the work for you and ping you when it's done. You can always check up on it." ].

(** The tool names are absent, or all blank. *)
Definition noToolNames (p : Params.t) : Prop :=
  Forall (fun name => trim name = "") (orElse (Params.toolNames p) []).



(** ** Environments and inputs of the examples *)

Definition noFile (_ : string) : ReadResult := ReadError "ENOENT".
Definition deniedFile (_ : string) : ReadResult := ReadError "EACCES".
Definition emptyFile (_ : string) : ReadResult := FileContent "".
Definition fileWith (text : string) (_ : string) : ReadResult := FileContent text.

(** [path.join] on two plain segments. *)
Definition joinSegments (dir name : string) : string := dir ++ "/" ++ name.

(** A renderer that outputs the template text as it is, which is what the
    template engine does on a template without tags. *)
Definition literalRender (template : string) (_ : TemplateContext.t) : Completion :=
  Returns template.

(** A call with the workspace directory only. *)
Definition bareParams (workspaceDir : string) : Params.t :=
  Params.mk workspaceDir None None None None None None None None None None None
            None None None None None None None None None None None None.

Definition withMode (m : PromptMode) (p : Params.t) : Params.t :=
  Params.mk (Params.workspaceDir p) (Params.defaultThinkLevel p)
    (Params.reasoningLevel p) (Params.extraSystemPrompt p) (Params.ownerNumbers p)
    (Params.reasoningTagHint p) (Params.toolNames p) (Params.toolSummaries p)
    (Params.modelAliasLines p) (Params.userTimezone p) (Params.userTime p)
    (Params.userTimeFormat p) (Params.contextFiles p) (Params.skillsPrompt p)
    (Params.heartbeatPrompt p) (Params.docsPath p) (Params.workspaceNotes p)
    (Params.ttsHint p) (Some m) (Params.runtimeInfo p) (Params.messageToolHints p)
    (Params.sandboxInfo p) (Params.reactionGuidance p) (Params.memoryCitationsMode p).

Definition withToolNames (names : list string) (p : Params.t) : Params.t :=
  Params.mk (Params.workspaceDir p) (Params.defaultThinkLevel p)
    (Params.reasoningLevel p) (Params.extraSystemPrompt p) (Params.ownerNumbers p)
    (Params.reasoningTagHint p) (Some names) (Params.toolSummaries p)
    (Params.modelAliasLines p) (Params.userTimezone p) (Params.userTime p)
    (Params.userTimeFormat p) (Params.contextFiles p) (Params.skillsPrompt p)
    (Params.heartbeatPrompt p) (Params.docsPath p) (Params.workspaceNotes p)
    (Params.ttsHint p) (Params.promptMode p) (Params.runtimeInfo p)
    (Params.messageToolHints p) (Params.sandboxInfo p) (Params.reactionGuidance p)
    (Params.memoryCitationsMode p).

Definition withExtra (text : string) (p : Params.t) : Params.t :=
  Params.mk (Params.workspaceDir p) (Params.defaultThinkLevel p)
    (Params.reasoningLevel p) (Some text) (Params.ownerNumbers p)
    (Params.reasoningTagHint p) (Params.toolNames p) (Params.toolSummaries p)
    (Params.modelAliasLines p) (Params.userTimezone p) (Params.userTime p)
    (Params.userTimeFormat p) (Params.contextFiles p) (Params.skillsPrompt p)
    (Params.heartbeatPrompt p) (Params.docsPath p) (Params.workspaceNotes p)
    (Params.ttsHint p) (Params.promptMode p) (Params.runtimeInfo p)
    (Params.messageToolHints p) (Params.sandboxInfo p) (Params.reactionGuidance p)
    (Params.memoryCitationsMode p).

Definition withContextFiles (files : list ContextFile.t) (p : Params.t) : Params.t :=
  Params.mk (Params.workspaceDir p) (Params.defaultThinkLevel p)
    (Params.reasoningLevel p) (Params.extraSystemPrompt p) (Params.ownerNumbers p)
    (Params.reasoningTagHint p) (Params.toolNames p) (Params.toolSummaries p)
    (Params.modelAliasLines p) (Params.userTimezone p) (Params.userTime p)
    (Params.userTimeFormat p) (Some files) (Params.skillsPrompt p)
    (Params.heartbeatPrompt p) (Params.docsPath p) (Params.workspaceNotes p)
    (Params.ttsHint p) (Params.promptMode p) (Params.runtimeInfo p)
    (Params.messageToolHints p) (Params.sandboxInfo p) (Params.reactionGuidance p)
    (Params.memoryCitationsMode p).

Definition withRuntimeInfo (r : RuntimeInfo.t) (p : Params.t) : Params.t :=
  Params.mk (Params.workspaceDir p) (Params.defaultThinkLevel p)
    (Params.reasoningLevel p) (Params.extraSystemPrompt p) (Params.ownerNumbers p)
    (Params.reasoningTagHint p) (Params.toolNames p) (Params.toolSummaries p)
    (Params.modelAliasLines p) (Params.userTimezone p) (Params.userTime p)
    (Params.userTimeFormat p) (Params.contextFiles p) (Params.skillsPrompt p)
    (Params.heartbeatPrompt p) (Params.docsPath p) (Params.workspaceNotes p)
    (Params.ttsHint p) (Params.promptMode p) (Some r) (Params.messageToolHints p)
    (Params.sandboxInfo p) (Params.reactionGuidance p) (Params.memoryCitationsMode p).

(** The call of the repository's tests: a workspace, an agent id, no sandbox. *)
Definition testParams : Params.t :=
  Params.mk "/test/workspace" None None None None None None None None None None
    None None None None None None None None
    (Some (RuntimeInfo.mk (Some "test-agent") None None None None None None None
                          None None))
    None (Some (SandboxInfo.mk false None None None None None None None)) None None.

(** ** Vocabulary of the further properties *)

(** The tools in the order of their lines: [toolLines] is [toolLine] mapped
    over this list. *)
Definition listedTools (p : Params.t) : list string :=
  (enabledTools p ++ toSorted (extraTools p))%list.


(** The raw name [raw] stands for the tool [t]: trimmed and lower-cased it
    is [t]. *)
Definition normalizesTo (t raw : string) : Prop := toLowerCase (trim raw) = t.

(** The same call with another clock reading. *)
Definition withClock (userTime userTimeFormat : option string) (p : Params.t)
  : Params.t :=
  Params.mk (Params.workspaceDir p) (Params.defaultThinkLevel p)
    (Params.reasoningLevel p) (Params.extraSystemPrompt p) (Params.ownerNumbers p)
    (Params.reasoningTagHint p) (Params.toolNames p) (Params.toolSummaries p)
    (Params.modelAliasLines p) (Params.userTimezone p) userTime userTimeFormat
    (Params.contextFiles p) (Params.skillsPrompt p) (Params.heartbeatPrompt p)
    (Params.docsPath p) (Params.workspaceNotes p) (Params.ttsHint p)
    (Params.promptMode p) (Params.runtimeInfo p) (Params.messageToolHints p)
    (Params.sandboxInfo p) (Params.reactionGuidance p)
    (Params.memoryCitationsMode p).

(** The fields that the prompt of minimal mode reads. *)
Definition minimalInputs (p : Params.t) :=
  (Params.workspaceDir p, Params.workspaceNotes p, Params.sandboxInfo p,
   Params.userTimezone p, Params.contextFiles p, Params.extraSystemPrompt p,
   Params.reactionGuidance p, Params.reasoningTagHint p, Params.runtimeInfo p,
   Params.defaultThinkLevel p, Params.reasoningLevel p).

(** The sections of the default path, in the order in which [lines] takes
    them. *)
Definition sections
    (SILENT_REPLY_TOKEN : string) (listDeliverableMessageChannels : list string)
    (p : Params.t) : list (list string) :=
  [ [ IDENTITY_LINE; "" ];
    buildToolingSection (toolLines p) (execToolName p) (processToolName p)
      (isMinimal p);
    buildToolCallStyleSection;
    buildSafetySection;
    buildOpenClawCLISection;
    buildOpenClawSelfUpdateSection (hasGateway p) (isMinimal p);
    buildModelAliasesSection (Params.modelAliasLines p) (isMinimal p);
    buildSkillsSection (skillsPrompt p) (isMinimal p) (readToolName p);
    buildMemorySection (isMinimal p) (availableTools p)
      (Params.memoryCitationsMode p);
    buildWorkspaceSection (Params.workspaceDir p) (workspaceNotes p);
    buildDocsSection (Params.docsPath p) (isMinimal p) (readToolName p);
    buildSandboxSection (orElse (Params.sandboxInfo p) noSandbox);
    buildUserIdentitySection (ownerLine p) (isMinimal p);
    buildTimeSection (userTimezone p);
    [ "## Workspace Files (injected)";
      "These user-editable files are loaded by OpenClaw and included below in Project Context.";
      "" ];
    buildReplyTagsSection (isMinimal p);
    buildMessagingSection SILENT_REPLY_TOKEN (isMinimal p) (availableTools p)
      (messageChannelOptions listDeliverableMessageChannels)
      (inlineButtonsEnabled p) (runtimeChannel p) (Params.messageToolHints p);
    buildVoiceSection (isMinimal p) (Params.ttsHint p);
    buildProjectContextSection (Params.contextFiles p);
    buildExtraSystemPromptSection (extraSystemPrompt p) (promptMode p);
    (if truthy_opt (extraSystemPrompt p)
     then [ contextHeader (promptMode p); orElse (extraSystemPrompt p) ""; "" ]
     else []);
    buildReactionsSection (Params.reactionGuidance p);
    buildReasoningFormatSection (reasoningHint p);
    (if negb (isMinimal p)
     then buildSilentRepliesSection SILENT_REPLY_TOKEN (isMinimal p) else []);
    (if negb (isMinimal p)
     then buildHeartbeatsSection (heartbeatPrompt p) (isMinimal p) else []);
    buildRuntimeSection
      (buildRuntimeLine (runtimeInfo p) (runtimeChannel p) (runtimeCapabilities p)
         (Params.defaultThinkLevel p))
      (reasoningLevel p) (Params.defaultThinkLevel p) ].

(** The lines that open the Sandbox section. *)
Definition SANDBOX_NOTICE : list string :=
  [ "## Sandbox";
    "You are running in a sandboxed runtime (tools execute in Docker).";
    "Some tools may be unavailable due to sandbox policy.";
    "Sub-agents stay sandboxed (no elevated/host access). Need outside-sandbox read/write? Don't spawn; ask first." ].

(** The call of the tests with a sandbox on "/sandbox/ws", in minimal mode. *)
Definition sandboxedParams : Params.t :=
  Params.mk "/test/workspace" None None None None None None None None None None
    None None None None None None None (Some minimal) None None
    (Some (SandboxInfo.mk true (Some "/sandbox/ws") None None None None None None))
    None None.

(** ** Vocabulary and environments of the amended statements *)

(** The caller names its tools in ASCII, the text on which [toLowerCase]
    is the lower-casing of JavaScript. *)
Definition asciiNames (p : Params.t) : Prop :=
  Forall (fun name => isAscii name = true) (orElse (Params.toolNames p) []).

(** The keys of the caller's tool descriptions are ASCII. *)
Definition asciiKeys (p : Params.t) : Prop :=
  Forall (fun entry : string * string => isAscii (fst entry) = true)
         (orElse (Params.toolSummaries p) []).

(** An optional text that is absent or blank. *)
Definition blank (o : option string) : bool :=
  negb (truthy_opt (option_map trim o)).

(** An optional list of texts that is absent, empty or all blank. *)
Definition allBlank (o : option (list string)) : bool :=
  forallb (fun s => negb (truthy (trim s))) (orElse o []).

(** An optional list that is absent or empty. *)
Definition noneOrEmpty {A : Type} (o : option (list A)) : bool :=
  match o with
  | Some (_ :: _) => false
  | _ => true
  end.

(** An optional record that is absent. *)
Definition absent {A : Type} (o : option A) : bool :=
  match o with
  | Some _ => false
  | None => true
  end.

(** The sections that the specification makes depend on an optional input,
    each with the test that this input is absent or empty. *)
Definition inputGatedSections (p : Params.t) : list (bool * list string) :=
  [ (allBlank (Params.toolNames p),
     buildOpenClawSelfUpdateSection (hasGateway p) (isMinimal p));
    (noneOrEmpty (Params.modelAliasLines p),
     buildModelAliasesSection (Params.modelAliasLines p) (isMinimal p));
    (blank (Params.skillsPrompt p),
     buildSkillsSection (skillsPrompt p) (isMinimal p) (readToolName p));
    (allBlank (Params.toolNames p),
     buildMemorySection (isMinimal p) (availableTools p)
       (Params.memoryCitationsMode p));
    (blank (Params.docsPath p),
     buildDocsSection (Params.docsPath p) (isMinimal p) (readToolName p));
    (absent (Params.sandboxInfo p),
     buildSandboxSection (orElse (Params.sandboxInfo p) noSandbox));
    (allBlank (Params.ownerNumbers p),
     buildUserIdentitySection (ownerLine p) (isMinimal p));
    (blank (Params.userTimezone p), buildTimeSection (userTimezone p));
    (blank (Params.ttsHint p), buildVoiceSection (isMinimal p) (Params.ttsHint p));
    (noneOrEmpty (Params.contextFiles p),
     buildProjectContextSection (Params.contextFiles p));
    (blank (Params.extraSystemPrompt p),
     buildExtraSystemPromptSection (extraSystemPrompt p) (promptMode p));
    (blank (Params.extraSystemPrompt p),
     if truthy_opt (extraSystemPrompt p)
     then [ contextHeader (promptMode p); orElse (extraSystemPrompt p) ""; "" ]
     else []);
    (absent (Params.reactionGuidance p),
     buildReactionsSection (Params.reactionGuidance p));
    (negb (truthy_bool (Params.reasoningTagHint p)),
     buildReasoningFormatSection (reasoningHint p)) ].

(** The same call with other values for the inputs that only sections of
    the default path read. *)
Definition withDefaultPathInputs
    (skillsPrompt : option string) (reasoningTagHint : option bool)
    (memoryCitationsMode : option string) (p : Params.t) : Params.t :=
  Params.mk (Params.workspaceDir p) (Params.defaultThinkLevel p)
    (Params.reasoningLevel p) (Params.extraSystemPrompt p) (Params.ownerNumbers p)
    reasoningTagHint (Params.toolNames p) (Params.toolSummaries p)
    (Params.modelAliasLines p) (Params.userTimezone p) (Params.userTime p)
    (Params.userTimeFormat p) (Params.contextFiles p) skillsPrompt
    (Params.heartbeatPrompt p) (Params.docsPath p) (Params.workspaceNotes p)
    (Params.ttsHint p) (Params.promptMode p) (Params.runtimeInfo p)
    (Params.messageToolHints p) (Params.sandboxInfo p) (Params.reactionGuidance p)
    memoryCitationsMode.

(** The same call without an extra system prompt. *)
Definition withoutExtra (p : Params.t) : Params.t :=
  Params.mk (Params.workspaceDir p) (Params.defaultThinkLevel p)
    (Params.reasoningLevel p) None (Params.ownerNumbers p)
    (Params.reasoningTagHint p) (Params.toolNames p) (Params.toolSummaries p)
    (Params.modelAliasLines p) (Params.userTimezone p) (Params.userTime p)
    (Params.userTimeFormat p) (Params.contextFiles p) (Params.skillsPrompt p)
    (Params.heartbeatPrompt p) (Params.docsPath p) (Params.workspaceNotes p)
    (Params.ttsHint p) (Params.promptMode p) (Params.runtimeInfo p)
    (Params.messageToolHints p) (Params.sandboxInfo p) (Params.reactionGuidance p)
    (Params.memoryCitationsMode p).

Definition withHeartbeatPrompt (text : string) (p : Params.t) : Params.t :=
  Params.mk (Params.workspaceDir p) (Params.defaultThinkLevel p)
    (Params.reasoningLevel p) (Params.extraSystemPrompt p) (Params.ownerNumbers p)
    (Params.reasoningTagHint p) (Params.toolNames p) (Params.toolSummaries p)
    (Params.modelAliasLines p) (Params.userTimezone p) (Params.userTime p)
    (Params.userTimeFormat p) (Params.contextFiles p) (Params.skillsPrompt p)
    (Some text) (Params.docsPath p) (Params.workspaceNotes p)
    (Params.ttsHint p) (Params.promptMode p) (Params.runtimeInfo p)
    (Params.messageToolHints p) (Params.sandboxInfo p) (Params.reactionGuidance p)
    (Params.memoryCitationsMode p).

Definition withToolSummaries (entries : list (string * string)) (p : Params.t)
  : Params.t :=
  Params.mk (Params.workspaceDir p) (Params.defaultThinkLevel p)
    (Params.reasoningLevel p) (Params.extraSystemPrompt p) (Params.ownerNumbers p)
    (Params.reasoningTagHint p) (Params.toolNames p) (Some entries)
    (Params.modelAliasLines p) (Params.userTimezone p) (Params.userTime p)
    (Params.userTimeFormat p) (Params.contextFiles p) (Params.skillsPrompt p)
    (Params.heartbeatPrompt p) (Params.docsPath p) (Params.workspaceNotes p)
    (Params.ttsHint p) (Params.promptMode p) (Params.runtimeInfo p)
    (Params.messageToolHints p) (Params.sandboxInfo p) (Params.reactionGuidance p)
    (Params.memoryCitationsMode p).

Fixpoint dropChars (n : nat) (s : string) : string :=
  match n, s with
  | S m, String _ r => dropChars m r
  | _, _ => s
  end.

(** [s.replace(tag, value)] for a string [tag]: its first occurrence. *)
Fixpoint replaceFirst (tag value s : string) : string :=
  if String.prefix tag s then value ++ dropChars (String.length tag) s
  else
    match s with
    | EmptyString => EmptyString
    | String c r => String c (replaceFirst tag value r)
    end.

(** The engine on the templates whose only tag is one [{{workspaceDir}}]:
    the tag is replaced by that field of the context. *)
Definition workspaceDirRender (template : string) (context : TemplateContext.t)
  : Completion :=
  Returns (replaceFirst "{{workspaceDir}}" (TemplateContext.workspaceDir context)
             template).

(** The engine at one draw of its [random] filter, on the templates whose
    only tag is one [{{ [1, 2] | random }}]. *)
Definition randomRender (draw : string) (template : string)
    (_ : TemplateContext.t) : Completion :=
  Returns (replaceFirst "{{ [1, 2] | random }}" draw template).

(** The engine on a template without tags, which it returns as it is, and
    on a template with a variable tag left open, which it refuses with an
    error of that name. *)
Definition strictRender (template : string) (_ : TemplateContext.t) : Completion :=
  if includes template "{{" && negb (includes template "}}")
  then Throws "Template render error"
  else Returns template.

(** * Properties *)

(** ** The repository's tests, replayed on the embedding *)

(** "formats runtime line correctly". *)
Example buildRuntimeLine_all_fields :
  buildRuntimeLine
    (Some (RuntimeInfo.mk (Some "main") (Some "localhost") (Some "Linux") None
             (Some "v18.0.0") (Some "claude-3-5") None None None None))
    (Some "telegram") [ "inlinebuttons"; "polls" ] (Some "low")
  = "Runtime: agent=main | host=localhost | os=Linux | node=v18.0.0 | model=claude-3-5 | channel=telegram | capabilities=inlinebuttons,polls | thinking=low".
Proof. reflexivity. Qed.

(** "handles partial runtime info". *)
Example buildRuntimeLine_agent_only :
  buildRuntimeLine
    (Some (RuntimeInfo.mk (Some "main") None None None None None None None None None))
    None [] None
  = "Runtime: agent=main | thinking=off".
Proof. reflexivity. Qed.

(** "includes minimal sections in minimal mode". *)
Example minimal_mode_test :
  exists prompt,
    buildAgentSystemPrompt "NO_REPLY" [] noFile joinSegments literalRender
      (withMode minimal testParams) = Returns prompt
    /\ forallb (includes prompt)
         [ "## Tool Call Style"; "## Safety"; "## Workspace"; "## Runtime" ] = true
    /\ existsb (includes prompt)
         [ "## Tooling"; "## Silent Replies"; "## Heartbeats"; "## Messaging";
           "## Voice" ] = false.
Proof. eexists. split; [|split]; vm_compute; reflexivity. Qed.

(** "includes all default sections in full mode". *)
Example full_mode_test :
  exists prompt,
    buildAgentSystemPrompt "NO_REPLY" [] noFile joinSegments literalRender
      (withMode full testParams) = Returns prompt
    /\ forallb (includes prompt)
         [ "## Tooling"; "## Safety"; "## OpenClaw CLI Quick Reference";
           "## Messaging"; "## Silent Replies"; "## Heartbeats" ] = true.
Proof. eexists. split; vm_compute; reflexivity. Qed.

(** "verifies the fix": a template without tags is returned as it is. *)
Example override_test :
  buildAgentSystemPrompt "NO_REPLY" []
    (fileWith "OVERRIDE: No tools should be injected") joinSegments literalRender
    testParams
  = Returns "OVERRIDE: No tools should be injected".
Proof. reflexivity. Qed.

(** ** Facts on strings *)

Lemma append_nil_r (s : string) : s ++ "" = s.
Proof. induction s as [|c s IH]; simpl; [reflexivity | now rewrite IH]. Qed.

Lemma append_assoc (a b c : string) : (a ++ b) ++ c = a ++ (b ++ c).
Proof. induction a as [|x a IH]; simpl; [reflexivity | now rewrite IH]. Qed.

Lemma append_inv_head (a b c : string) : a ++ b = a ++ c -> b = c.
Proof.
  induction a as [|x a IH]; simpl; intros H; [exact H|].
  injection H as H. auto.
Qed.

(** Two ways of cutting one string: one cut is inside a part of the other. *)
Lemma append_eq_append (x y a b : string) :
  x ++ y = a ++ b ->
  (exists m, a = x ++ m /\ y = m ++ b) \/ (exists m, x = a ++ m /\ b = m ++ y).
Proof.
  revert a. induction x as [|c x IH]; intros a H.
  - left. exists a. split; [reflexivity | exact H].
  - destruct a as [|d a].
    + right. exists (String c x). split; [reflexivity | symmetry; exact H].
    + simpl in H. injection H as Hc H. subst d.
      destruct (IH a H) as [[m [E1 E2]]|[m [E1 E2]]].
      * left. exists m. simpl. now rewrite E1.
      * right. exists m. simpl. now rewrite E1.
Qed.

Lemma prefix_spec (h s : string) :
  String.prefix h s = true <-> exists t, s = h ++ t.
Proof.
  revert s. induction h as [|c h IH]; intros s.
  - destruct s; simpl; split; intros; eauto.
  - destruct s as [|d s]; simpl.
    + split; [discriminate | intros [t Ht]; discriminate].
    + destruct (ascii_dec c d) as [->|Hn].
      * rewrite IH. split; intros [t Ht]; exists t.
        -- now rewrite Ht.
        -- now injection Ht.
      * split; [discriminate | intros [t Ht]]. injection Ht as Hd _. congruence.
Qed.

Lemma includes_nil (h : string) : includes "" h = String.prefix h "" || false.
Proof. reflexivity. Qed.

Lemma includes_cons (c : ascii) (s h : string) :
  includes (String c s) h = String.prefix h (String c s) || includes s h.
Proof. reflexivity. Qed.

Lemma includes_occurs (s h : string) : includes s h = true <-> occurs h s.
Proof.
  induction s as [|c s IH].
  - rewrite includes_nil, orb_false_r, prefix_spec. split.
    + intros [t Ht]. exists "", t. exact Ht.
    + intros [a [b Hab]]. destruct a; [now exists b | discriminate].
  - rewrite includes_cons, orb_true_iff, prefix_spec, IH. split.
    + intros [[t Ht]|[a [b Hab]]].
      * exists "", t. exact Ht.
      * exists (String c a), b. simpl. now rewrite Hab.
    + intros [a [b Hab]]. destruct a as [|d a].
      * left. now exists b.
      * right. simpl in Hab. injection Hab as _ Hab. now exists a, b.
Qed.

Lemma includes_false (s h : string) : includes s h = false <-> ~ occurs h s.
Proof.
  rewrite <- includes_occurs. destruct (includes s h); split; intros; congruence.
Qed.

Lemma occurs_refl (h : string) : occurs h h.
Proof. exists "", "". now rewrite append_nil_r. Qed.

Lemma occurs_app_l (h a b : string) : occurs h a -> occurs h (a ++ b).
Proof.
  intros [x [y ->]]. exists x, (y ++ b). now rewrite !append_assoc.
Qed.

Lemma occurs_app_r (h a b : string) : occurs h b -> occurs h (a ++ b).
Proof.
  intros [x [y ->]]. exists (a ++ x), y. now rewrite !append_assoc.
Qed.

Lemma occurs_trans (h s t : string) : occurs h s -> occurs s t -> occurs h t.
Proof.
  intros [x [y ->]] [u [v ->]]. exists (u ++ x), (y ++ v).
  now rewrite !append_assoc.
Qed.

Lemma occurs_nil (h : string) : occurs h "" -> h = "".
Proof.
  intros [a [b H]]. destruct a; [|discriminate]. destruct h; [reflexivity|discriminate].
Qed.

(** An occurrence in [x ++ y] lies in [x], lies in [y], or bridges the cut. *)
Lemma occurs_app_inv (h x y : string) :
  occurs h (x ++ y) ->
  occurs h x \/ occurs h y \/
  exists h1 h2, h = h1 ++ h2 /\ h1 <> "" /\ h2 <> "" /\
                (exists a, x = a ++ h1) /\ (exists b, y = h2 ++ b).
Proof.
  intros [a [b H]].
  destruct (append_eq_append _ _ _ _ H) as [[m [Ea Ey]]|[m [Ex Eb]]].
  - right. left. exists m, b. exact Ey.
  - destruct (append_eq_append _ _ _ _ Eb) as [[n [Em Eb']]|[n [Eh Ey]]].
    + left. exists a, n. now rewrite Ex, Em.
    + destruct m as [|c m].
      * right. left. simpl in Eh. subst n. exists "", b. exact Ey.
      * destruct n as [|d n].
        -- left. rewrite append_nil_r in Eh. subst h. exists a, "".
           now rewrite append_nil_r.
        -- right. right. exists (String c m), (String d n).
           repeat split; try discriminate; eauto.
Qed.


Lemma ends_with_spec (x t : string) :
  ends_with x t = true <-> exists a, x = a ++ t.
Proof.
  induction x as [|c x IH].
  - change (ends_with "" t) with (String.eqb "" t || false).
    rewrite orb_false_r, String.eqb_eq. split.
    + intros <-. now exists "".
    + intros [a Ha]. destruct a; [exact Ha | discriminate].
  - change (ends_with (String c x) t)
      with (String.eqb (String c x) t || ends_with x t).
    rewrite orb_true_iff, String.eqb_eq, IH. split.
    + intros [<-|[a ->]]; [now exists "" | now exists (String c a)].
    + intros [a Ha]. destruct a as [|d a].
      * left. exact Ha.
      * right. injection Ha as _ Ha. now exists a.
Qed.

Lemma truthy_true (s : string) : truthy s = true <-> s <> "".
Proof. destruct s; simpl; split; intros; congruence. Qed.

Lemma truthy_false (s : string) : truthy s = false <-> s = "".
Proof. destruct s; simpl; split; intros; congruence. Qed.















(** ** Facts on joining and filtering *)

Lemma join_cons_cons (sep x y : string) (r : list string) :
  join sep (x :: y :: r) = x ++ sep ++ join sep (y :: r).
Proof. reflexivity. Qed.

Lemma join_app (sep : string) (ls1 ls2 : list string) :
  ls1 <> [] -> ls2 <> [] ->
  join sep (ls1 ++ ls2) = join sep ls1 ++ sep ++ join sep ls2.
Proof.
  intros H1 H2. induction ls1 as [|x ls1 IH]; [contradiction|].
  destruct ls1 as [|y ls1].
  - destruct ls2 as [|z ls2]; [contradiction | reflexivity].
  - change ((x :: y :: ls1) ++ ls2)%list with (x :: y :: (ls1 ++ ls2))%list.
    rewrite !join_cons_cons.
    change (y :: (ls1 ++ ls2))%list with ((y :: ls1) ++ ls2)%list.
    rewrite IH by discriminate. now rewrite !append_assoc.
Qed.

(** What is joined first stays in front. *)
Lemma join_prefix (sep : string) (ls1 ls2 : list string) :
  exists rest, join sep (ls1 ++ ls2) = join sep ls1 ++ rest.
Proof.
  destruct ls2 as [|z ls2].
  - exists "". now rewrite app_nil_r, append_nil_r.
  - destruct ls1 as [|x ls1].
    + now exists (join sep (z :: ls2)).
    + exists (sep ++ join sep (z :: ls2)). apply join_app; discriminate.
Qed.

Lemma join_suffix (sep : string) (ls1 ls2 : list string) :
  exists before, join sep (ls1 ++ ls2) = before ++ join sep ls2.
Proof.
  destruct ls1 as [|x ls1].
  - now exists "".
  - destruct ls2 as [|z ls2].
    + exists (join sep (x :: ls1)). now rewrite app_nil_r, append_nil_r.
    + exists (join sep (x :: ls1) ++ sep).
      rewrite join_app by discriminate. now rewrite append_assoc.
Qed.

Lemma filter_Boolean_app (a b : list string) :
  filter_Boolean (a ++ b) = (filter_Boolean a ++ filter_Boolean b)%list.
Proof. apply filter_app. Qed.


Lemma block_last (B : list string) : block B B.
Proof. exists [], []. now rewrite app_nil_r. Qed.

Lemma block_skip (B A L : list string) : block B L -> block B (A ++ L).
Proof.
  intros [A' [C ->]]. exists (A ++ A')%list, C. now rewrite app_assoc.
Qed.

Lemma block_front (B L C : list string) : block B L -> block B (L ++ C).
Proof.
  intros [A [C' ->]]. exists A, (C' ++ C)%list. now rewrite <- !app_assoc.
Qed.

Lemma ends_in_refl (E : list string) : ends_in E E.
Proof. now exists []. Qed.

Lemma ends_in_skip (E A L : list string) : ends_in E L -> ends_in E (A ++ L).
Proof. intros [I0 ->]. exists (A ++ I0)%list. now rewrite app_assoc. Qed.

(** The text of a block of entries shows in the joined text. *)
Lemma block_occurs (B L : list string) :
  block B L -> occurs (sectionText B) (join nl (filter_Boolean L)).
Proof.
  intros [A [C ->]]. unfold sectionText. rewrite !filter_Boolean_app.
  destruct (join_suffix nl (filter_Boolean A) (filter_Boolean B ++ filter_Boolean C))
    as [before ->].
  destruct (join_prefix nl (filter_Boolean B) (filter_Boolean C)) as [rest ->].
  now exists before, rest.
Qed.

(** ** Texts free of a header *)



























(** ** The override path and the lookup of the template (C1, C2, C3) *)

(** The override path: a template that is readable and not empty. *)
Lemma override_path
    (token : string) (channels : list string) (readFileSync : string -> ReadResult)
    (path_join : string -> string -> string)
    (renderString : string -> TemplateContext.t -> Completion)
    (p : Params.t) (template : string) :
  readFileSync (path_join (Params.workspaceDir p) "SYSTEM.md")
    = FileContent template ->
  template <> "" ->
  buildAgentSystemPrompt token channels readFileSync path_join renderString p
  = renderString template (templateContext channels p).
Proof.
  intros Hread Hne. unfold buildAgentSystemPrompt, readSystemTemplateSync.
  rewrite Hread. simpl. apply truthy_true in Hne. rewrite Hne. reflexivity.
Qed.

(** The projection reads neither the skills prompt, nor the reasoning-tag
    hint, nor the citations mode. *)
Lemma templateContext_defaultPathInputs
    (channels : list string) (skills : option string) (hint : option bool)
    (citations : option string) (p : Params.t) :
  templateContext channels (withDefaultPathInputs skills hint citations p)
  = templateContext channels p.
Proof.
  unfold templateContext, toolLines, toolLine, enabledTools, extraTools,
    availableTools, normalizedTools, resolveToolName, canonicalByNormalized,
    canonicalToolNames, rawToolNames, externalToolSummaries, hasGateway,
    readToolName, execToolName, processToolName, ownerLine, ownerNumbers,
    userTimezone, heartbeatPrompt, runtimeChannel, inlineButtonsEnabled,
    runtimeCapabilitiesLower, runtimeCapabilities, runtimeInfo, isMinimal,
    promptMode, workspaceNotes, withDefaultPathInputs.
  cbn [Params.workspaceDir Params.defaultThinkLevel Params.reasoningLevel
       Params.extraSystemPrompt Params.ownerNumbers Params.reasoningTagHint
       Params.toolNames Params.toolSummaries Params.modelAliasLines
       Params.userTimezone Params.contextFiles Params.skillsPrompt
       Params.heartbeatPrompt Params.docsPath Params.workspaceNotes
       Params.ttsHint Params.promptMode Params.runtimeInfo
       Params.messageToolHints Params.sandboxInfo Params.reactionGuidance
       Params.memoryCitationsMode].
  reflexivity.
Qed.

Section OverrideAndLookup.

Variable SILENT_REPLY_TOKEN : string.
Variable listDeliverableMessageChannels : list string.
Variable path_join : string -> string -> string.
Variable renderString : string -> TemplateContext.t -> Completion.

Local Abbreviation build fs :=
  (buildAgentSystemPrompt SILENT_REPLY_TOKEN listDeliverableMessageChannels
     fs path_join renderString).

(** The default path, whatever made the lookup fall through. *)
Lemma default_path (readFileSync : string -> ReadResult) (p : Params.t) :
  noOverride readFileSync path_join p ->
  build readFileSync p =
  match promptMode p with
  | none => Returns IDENTITY_LINE
  | _ => Returns (join nl (filter_Boolean
                    (lines SILENT_REPLY_TOKEN listDeliverableMessageChannels p)))
  end.
Proof.
  unfold noOverride, buildAgentSystemPrompt. intros H. now rewrite H.
Qed.

Lemma read_error_noOverride (readFileSync : string -> ReadResult)
    (p : Params.t) (code : string) :
  readFileSync (path_join (Params.workspaceDir p) "SYSTEM.md") = ReadError code ->
  noOverride readFileSync path_join p.
Proof.
  unfold noOverride, readSystemTemplateSync. intros H. now rewrite H.
Qed.

(** C1 (amended): when SYSTEM.md in the workspace directory is readable
    and not empty, [buildAgentSystemPrompt] completes exactly as the
    template engine does on the file's text and the context projection: it
    returns what the engine returns and raises what the engine raises.  This
    holds in every prompt mode, "none" included.  The default path is not
    taken: the result is the same for any silent-reply token and any skills
    prompt, reasoning-tag hint and citations mode, which only sections of
    the default path read. *)
Theorem C1_override_is_the_rendering
    (readFileSync : string -> ReadResult) (p : Params.t) (template : string) :
  readFileSync (path_join (Params.workspaceDir p) "SYSTEM.md")
    = FileContent template ->
  template <> "" ->
  build readFileSync p
  = renderString template (templateContext listDeliverableMessageChannels p)
  /\ (forall m,
        build readFileSync (withMode m p)
        = renderString template
            (templateContext listDeliverableMessageChannels (withMode m p)))
  /\ (forall token skills hint citations,
        buildAgentSystemPrompt token listDeliverableMessageChannels readFileSync
          path_join renderString (withDefaultPathInputs skills hint citations p)
        = build readFileSync p).
Proof.
  intros Hread Hne. split; [|split].
  - now apply override_path.
  - intros m. apply override_path; [exact Hread | exact Hne].
  - intros token skills hint citations.
    rewrite (override_path token listDeliverableMessageChannels readFileSync
               path_join renderString
               (withDefaultPathInputs skills hint citations p) template Hread Hne).
    rewrite templateContext_defaultPathInputs. symmetry.
    now apply override_path.
Qed.

(** C2: with promptMode "none" and an unreadable SYSTEM.md, the result is
    the identity sentence alone, whatever the other fields hold. *)
Theorem C2_none_mode_is_identity
    (readFileSync : string -> ReadResult) (p : Params.t) (code : string) :
  Params.promptMode p = Some none ->
  readFileSync (path_join (Params.workspaceDir p) "SYSTEM.md") = ReadError code ->
  build readFileSync p =
  Returns "You are a personal assistant running inside OpenClaw.".
Proof.
  intros Hmode Hread.
  rewrite (default_path _ _ (read_error_noOverride _ _ _ Hread)).
  unfold promptMode. rewrite Hmode. reflexivity.
Qed.

End OverrideAndLookup.

(** The channel list shows in the Messaging section only, in full mode and
    when the message tool is available. *)
Lemma lines_channels (token : string) (channels1 channels2 : list string)
    (p : Params.t) :
  channels1 = channels2 \/ has (availableTools p) "message" = false
  \/ isMinimal p = true ->
  lines token channels1 p = lines token channels2 p.
Proof.
  intros [->|[H|H]]; [reflexivity| |];
    unfold lines, initialLines, buildMessagingSection; rewrite H; reflexivity.
Qed.

(** C3 (amended): the result is a function of the arguments and of three
    things of the environment.  On the default path these are the
    silent-reply token and the list of deliverable channels, the latter only
    in full mode with the message tool: two calls with the same arguments
    then complete alike whatever else the file system holds and whatever
    [path.join] and the engine do.  On the override path it is the text of
    the template and what the engine makes of it: two calls complete alike
    when the engine does. *)
Theorem C3_deterministic
    (token : string) (channels1 channels2 : list string)
    (fs1 fs2 : string -> ReadResult) (join1 join2 : string -> string -> string)
    (render1 render2 : string -> TemplateContext.t -> Completion)
    (p : Params.t) :
  (noOverride fs1 join1 p -> noOverride fs2 join2 p ->
   channels1 = channels2 \/ has (availableTools p) "message" = false
   \/ isMinimal p = true ->
   buildAgentSystemPrompt token channels1 fs1 join1 render1 p
   = buildAgentSystemPrompt token channels2 fs2 join2 render2 p)
  /\ (forall template,
        fs1 (join1 (Params.workspaceDir p) "SYSTEM.md") = FileContent template ->
        fs2 (join2 (Params.workspaceDir p) "SYSTEM.md") = FileContent template ->
        template <> "" ->
        render1 template (templateContext channels1 p)
        = render2 template (templateContext channels2 p) ->
        buildAgentSystemPrompt token channels1 fs1 join1 render1 p
        = buildAgentSystemPrompt token channels2 fs2 join2 render2 p).
Proof.
  split.
  - intros H1 H2 Hchannels.
    rewrite (default_path token channels1 join1 render1 fs1 p H1).
    rewrite (default_path token channels2 join2 render2 fs2 p H2).
    now rewrite (lines_channels token channels1 channels2 p Hchannels).
  - intros template H1 H2 Hne Hrender.
    rewrite (override_path token channels1 fs1 join1 render1 p template H1 Hne).
    rewrite (override_path token channels2 fs2 join2 render2 p template H2 Hne).
    exact Hrender.
Qed.

(** C1 (counterexample).  A readable but empty SYSTEM.md is not rendered:
    the engine would give the empty text, the call gives the identity
    sentence in mode "none".  A template that holds the text of a section
    puts it in the output.  And the call does not return when the engine
    refuses the template. *)
Lemma C1_override_counterexample :
  (emptyFile (joinSegments "/w" "SYSTEM.md") = FileContent ""
   /\ literalRender "" (templateContext [] (withMode none (bareParams "/w")))
      = Returns ""
   /\ buildAgentSystemPrompt "NO_REPLY" [] emptyFile joinSegments literalRender
        (withMode none (bareParams "/w"))
      = Returns "You are a personal assistant running inside OpenClaw.")
  /\ (buildAgentSystemPrompt "NO_REPLY" [] (fileWith "## Safety") joinSegments
        literalRender testParams
      = Returns "## Safety"
      /\ In "## Safety" buildSafetySection)
  /\ buildAgentSystemPrompt "NO_REPLY" [] (fileWith "Workspace: {{workspaceDir")
       joinSegments strictRender testParams
     = Throws "Template render error".
Proof.
  repeat split. now left.
Qed.

(** The template of the witness has a tag, which the engine renders from
    the projection. *)
Lemma C1_witness :
  buildAgentSystemPrompt "NO_REPLY" [] (fileWith "OVERRIDE: {{workspaceDir}}")
    joinSegments workspaceDirRender (withMode none testParams)
  = Returns "OVERRIDE: /test/workspace".
Proof.
  destruct (C1_override_is_the_rendering "NO_REPLY" [] joinSegments
              workspaceDirRender (fileWith "OVERRIDE: {{workspaceDir}}")
              (withMode none testParams) "OVERRIDE: {{workspaceDir}}")
    as [Hrender _].
  - reflexivity.
  - discriminate.
  - rewrite Hrender. reflexivity.
Defined.

Lemma C2_witness :
  buildAgentSystemPrompt "NO_REPLY" [] deniedFile joinSegments literalRender
    (withMode none testParams)
  = Returns "You are a personal assistant running inside OpenClaw.".
Proof.
  apply (C2_none_mode_is_identity "NO_REPLY" [] joinSegments literalRender
           deniedFile (withMode none testParams) "EACCES"); reflexivity.
Defined.

(** C3 (counterexample).  On the override path, one call and one template
    give two outputs at two draws of the engine's [random] filter.  On the
    default path, one call gives two prompts when the list of deliverable
    channels has changed in between. *)
Lemma C3_environment_counterexample :
  (buildAgentSystemPrompt "NO_REPLY" []
     (fileWith "Pick {{ [1, 2] | random }}") joinSegments (randomRender "1")
     testParams = Returns "Pick 1"
   /\ buildAgentSystemPrompt "NO_REPLY" []
        (fileWith "Pick {{ [1, 2] | random }}") joinSegments (randomRender "2")
        testParams = Returns "Pick 2")
  /\ exists prompt1 prompt2,
       buildAgentSystemPrompt "NO_REPLY" [ "telegram" ] noFile joinSegments
         literalRender (withToolNames [ "message" ] testParams) = Returns prompt1
       /\ buildAgentSystemPrompt "NO_REPLY" [ "telegram"; "signal" ] noFile
            joinSegments literalRender (withToolNames [ "message" ] testParams)
          = Returns prompt2
       /\ includes prompt1 "pass `channel` (telegram)." = true
       /\ includes prompt2 "pass `channel` (telegram)." = false
       /\ includes prompt2 "pass `channel` (telegram|signal)." = true.
Proof.
  split; [split; reflexivity|].
  eexists. eexists. repeat split; vm_compute; reflexivity.
Qed.

(** Two file systems without a template and two engines: one prompt. *)
Lemma C3_witness :
  buildAgentSystemPrompt "NO_REPLY" [] noFile joinSegments literalRender testParams
  = buildAgentSystemPrompt "NO_REPLY" [] emptyFile (fun dir _ => dir)
      workspaceDirRender testParams.
Proof.
  apply (C3_deterministic "NO_REPLY" [] [] noFile emptyFile joinSegments
           (fun dir _ => dir) literalRender workspaceDirRender testParams).
  - reflexivity.
  - reflexivity.
  - left. reflexivity.
Defined.

(** ** The default path: tool lines, fallback list, extra context (C4, C8, C10) *)

Lemma filter_Boolean_blank (names : list string) :
  Forall (fun name => trim name = "") names ->
  filter_Boolean (map trim names) = [].
Proof.
  induction 1 as [|name names Hname _ IH]; simpl; [reflexivity|].
  rewrite Hname. exact IH.
Qed.

Lemma noToolNames_canonical (p : Params.t) :
  noToolNames p -> canonicalToolNames p = [].
Proof. apply filter_Boolean_blank. Qed.

Lemma noToolNames_toolLines (p : Params.t) :
  noToolNames p ->
  toolLines p = [] /\ execToolName p = "exec" /\ processToolName p = "process".
Proof.
  intros H. apply noToolNames_canonical in H.
  unfold toolLines, execToolName, processToolName, resolveToolName,
    canonicalByNormalized, enabledTools, extraTools, availableTools,
    normalizedTools.
  rewrite H. repeat split.
Qed.

Lemma contextHeader_truthy (m : PromptMode) : truthy (contextHeader m) = true.
Proof. destruct m; reflexivity. Qed.

Section DefaultPath.

Variable SILENT_REPLY_TOKEN : string.
Variable listDeliverableMessageChannels : list string.
Variable readFileSync : string -> ReadResult.
Variable path_join : string -> string -> string.
Variable renderString : string -> TemplateContext.t -> Completion.

Local Abbreviation build :=
  (buildAgentSystemPrompt SILENT_REPLY_TOKEN listDeliverableMessageChannels
     readFileSync path_join renderString).
Local Abbreviation allLines :=
  (lines SILENT_REPLY_TOKEN listDeliverableMessageChannels).

(** [lines] opens with the identity line and the Tooling section. *)
Lemma lines_open (p : Params.t) :
  exists tail,
    allLines p =
    ([ IDENTITY_LINE; "" ]
     ++ buildToolingSection (toolLines p) (execToolName p) (processToolName p)
          (isMinimal p)
     ++ tail)%list.
Proof.
  unfold lines, initialLines. eexists.
  rewrite <- (app_assoc [IDENTITY_LINE; ""]).
  rewrite <- (app_assoc (buildToolingSection _ _ _ _)). reflexivity.
Qed.

(** The prompt of full mode, once the lookup has given nothing. *)
Lemma full_prompt (p : Params.t) :
  noOverride readFileSync path_join p ->
  Params.promptMode p = None \/ Params.promptMode p = Some full ->
  build p = Returns (join nl (filter_Boolean (allLines p)))
  /\ isMinimal p = false.
Proof.
  intros Hno Hmode. rewrite (default_path _ _ _ _ _ _ Hno).
  unfold isMinimal, promptMode. destruct Hmode as [-> | ->]; now split.
Qed.

(** C10: in full mode, with no tool name (or blank ones only), the prompt
    still opens with the identity line and a Tooling section, whose body
    is the fixed list: grep, find, ls, apply_patch, exec, process,
    browser, canvas, nodes, cron, sessions_list, sessions_history,
    sessions_send. *)
Theorem C10_fallback_tool_list (p : Params.t) :
  noOverride readFileSync path_join p ->
  Params.promptMode p = None \/ Params.promptMode p = Some full ->
  noToolNames p ->
  exists rest, build p = Returns (join nl FALLBACK_TOOLING ++ rest).
Proof.
  intros Hno Hmode Hnames.
  destruct (full_prompt p Hno Hmode) as [-> Hmin].
  destruct (noToolNames_toolLines p Hnames) as [Hlines [Hexec Hprocess]].
  destruct (lines_open p) as [tail ->].
  rewrite Hlines, Hexec, Hprocess, Hmin.
  rewrite app_assoc, filter_Boolean_app.
  destruct (join_prefix nl
              (filter_Boolean
                 ([IDENTITY_LINE; ""] ++ buildToolingSection [] "exec" "process" false))
              (filter_Boolean tail)) as [rest ->].
  exists rest. reflexivity.
Qed.

(** C4 (amended): in full mode, with the tool names "exec" and "read",
    the Tooling section lists read before exec, each with its built-in
    description, whatever descriptions the caller gives. *)
Theorem C4_canonical_order_with_descriptions (p : Params.t) :
  noOverride readFileSync path_join p ->
  Params.promptMode p = None \/ Params.promptMode p = Some full ->
  Params.toolNames p = Some [ "exec"; "read" ] ->
  toolLines p =
    [ "- read: Read file contents";
      "- exec: Run shell commands (pty available for TTY-required CLIs)" ]
  /\ exists rest,
       build p =
       Returns
         (join nl
            [ "You are a personal assistant running inside OpenClaw.";
              "## Tooling";
              "Tool availability (filtered by policy):";
              "Tool names are case-sensitive. Call tools exactly as listed.";
              "- read: Read file contents";
              "- exec: Run shell commands (pty available for TTY-required CLIs)";
              "TOOLS.md does not control tool availability; it is user guidance for how to use external tools.";
              "If a task is more complex or takes longer, spawn a sub-agent. It will do the work for you and ping you when it's done. You can always check up on it." ]
          ++ rest).
Proof.
  intros Hno Hmode Hnames.
  assert (Hlines : toolLines p =
    [ "- read: Read file contents";
      "- exec: Run shell commands (pty available for TTY-required CLIs)" ]).
  { unfold toolLines, toolLine, enabledTools, extraTools, availableTools,
      normalizedTools, resolveToolName, canonicalByNormalized,
      canonicalToolNames, rawToolNames.
    rewrite Hnames. reflexivity. }
  split; [exact Hlines|].
  destruct (full_prompt p Hno Hmode) as [-> Hmin].
  destruct (lines_open p) as [tail ->].
  rewrite Hlines, Hmin.
  rewrite app_assoc, filter_Boolean_app.
  match goal with
  | |- context [join nl (?P ++ filter_Boolean tail)%list] =>
      destruct (join_prefix nl P (filter_Boolean tail)) as [rest ->]
  end.
  exists rest. reflexivity.
Qed.

(** [initialLines] ends with the extra-context section. *)
Lemma initialLines_end (p : Params.t) :
  ends_in (buildExtraSystemPromptSection (extraSystemPrompt p) (promptMode p))
          (initialLines SILENT_REPLY_TOKEN listDeliverableMessageChannels p).
Proof.
  unfold initialLines. do 19 apply ends_in_skip. apply ends_in_refl.
Qed.

(** A blank extra prompt leaves the same lines as none. *)
Lemma lines_blank_extra (p : Params.t) (supplied : string) :
  Params.extraSystemPrompt p = Some supplied ->
  trim supplied = "" ->
  allLines p = allLines (withoutExtra p).
Proof.
  intros Hextra Hblank.
  unfold lines, initialLines, toolLines, toolLine, enabledTools, extraTools,
    availableTools, normalizedTools, resolveToolName, canonicalByNormalized,
    canonicalToolNames, rawToolNames, externalToolSummaries, hasGateway,
    readToolName, execToolName, processToolName, extraSystemPrompt, ownerLine,
    ownerNumbers, reasoningHint, reasoningLevel, userTimezone, skillsPrompt,
    heartbeatPrompt, runtimeChannel, runtimeCapabilities, inlineButtonsEnabled,
    runtimeCapabilitiesLower, runtimeInfo, isMinimal, promptMode, workspaceNotes,
    withoutExtra.
  cbn [Params.workspaceDir Params.defaultThinkLevel Params.reasoningLevel
       Params.extraSystemPrompt Params.ownerNumbers Params.reasoningTagHint
       Params.toolNames Params.toolSummaries Params.modelAliasLines
       Params.userTimezone Params.contextFiles Params.skillsPrompt
       Params.heartbeatPrompt Params.docsPath Params.workspaceNotes
       Params.ttsHint Params.promptMode Params.runtimeInfo
       Params.messageToolHints Params.sandboxInfo Params.reactionGuidance
       Params.memoryCitationsMode].
  rewrite Hextra. unfold buildExtraSystemPromptSection.
  cbn [option_map]. rewrite Hblank. cbn [truthy_opt truthy negb]. reflexivity.
Qed.

(** C8 (amended): in the default path, outside mode "none", when the
    extra system prompt that the caller supplies is not blank, its block -
    the header "## Subagent Context" in minimal mode and "## Group Chat
    Context" otherwise, then the text trimmed - is twice in [lines], once as
    the last section of the array literal and once pushed after it, and so
    twice in a row in the prompt.  A supplied text that is blank gives no
    block at all: the prompt is that of the call without an extra prompt. *)
Theorem C8_extra_context_twice (p : Params.t) (supplied : string) :
  noOverride readFileSync path_join p ->
  Params.extraSystemPrompt p = Some supplied ->
  (trim supplied <> "" -> promptMode p <> none ->
   exists prompt header,
     build p = Returns prompt
     /\ header = match promptMode p with
                 | minimal => "## Subagent Context"
                 | _ => "## Group Chat Context"
                 end
     /\ buildExtraSystemPromptSection (extraSystemPrompt p) (promptMode p)
        = [ header; trim supplied; "" ]
     /\ block [ header; trim supplied; ""; header; trim supplied; "" ] (allLines p)
     /\ includes prompt
          (header ++ nl ++ trim supplied ++ nl ++ header ++ nl ++ trim supplied)
        = true)
  /\ (trim supplied = "" ->
      buildExtraSystemPromptSection (extraSystemPrompt p) (promptMode p) = []
      /\ build p = build (withoutExtra p)).
Proof.
  intros Hno Hsupplied.
  assert (Hextra : extraSystemPrompt p = Some (trim supplied))
    by (unfold extraSystemPrompt; now rewrite Hsupplied).
  split.
  - intros Htext Hmode. apply truthy_true in Htext.
    rewrite (default_path _ _ _ _ _ _ Hno).
    exists (join nl (filter_Boolean (allLines p))), (contextHeader (promptMode p)).
    assert (Hsection :
      buildExtraSystemPromptSection (extraSystemPrompt p) (promptMode p)
      = [ contextHeader (promptMode p); trim supplied; "" ]).
    { unfold buildExtraSystemPromptSection. rewrite Hextra. simpl truthy_opt.
      now rewrite Htext. }
    assert (Hblock :
      block [ contextHeader (promptMode p); trim supplied; "";
              contextHeader (promptMode p); trim supplied; "" ] (allLines p)).
    { destruct (initialLines_end p) as [before Hinit].
      unfold lines. rewrite Hinit, Hsection, Hextra. simpl truthy_opt.
      rewrite Htext. simpl orElse.
      match goal with
      | |- block _ ((before ++ ?E) ++ ?E ++ ?R)%list =>
          exists before, R; now rewrite <- !app_assoc
      end. }
    split; [|split; [|split; [|split]]].
    + destruct (promptMode p); [reflexivity | reflexivity | contradiction].
    + reflexivity.
    + exact Hsection.
    + exact Hblock.
    + apply includes_occurs. apply block_occurs in Hblock.
      unfold sectionText in Hblock at 1. simpl filter_Boolean in Hblock at 1.
      rewrite contextHeader_truthy, Htext in Hblock. exact Hblock.
  - intros Hblank. split.
    + unfold buildExtraSystemPromptSection. now rewrite Hextra, Hblank.
    + assert (Hno' : noOverride readFileSync path_join (withoutExtra p)) by exact Hno.
      rewrite (default_path _ _ _ _ _ _ Hno), (default_path _ _ _ _ _ _ Hno').
      rewrite (lines_blank_extra p supplied Hsupplied Hblank). reflexivity.
Qed.

End DefaultPath.

(** C4 (counterexample): for the tool names "exec" and "read" and no
    description from the caller, the two lines carry the built-in
    descriptions; the prompt has no line that is "- read" or "- exec"
    alone. *)
Lemma C4_bare_names_counterexample :
  toolLines (withToolNames ["exec"; "read"] testParams)
  = [ "- read: Read file contents";
      "- exec: Run shell commands (pty available for TTY-required CLIs)" ]
  /\ exists prompt,
       buildAgentSystemPrompt "NO_REPLY" [] noFile joinSegments literalRender
         (withToolNames ["exec"; "read"] testParams) = Returns prompt
       /\ includes prompt ("- read" ++ nl) = false
       /\ includes prompt ("- exec" ++ nl) = false.
Proof.
  split; [reflexivity|]. eexists. split; [vm_compute; reflexivity|].
  split; vm_compute; reflexivity.
Qed.

Lemma C4_witness :
  exists rest,
    buildAgentSystemPrompt "NO_REPLY" [] noFile joinSegments literalRender
      (withToolNames ["exec"; "read"] testParams)
    = Returns
        (join nl
           [ "You are a personal assistant running inside OpenClaw.";
             "## Tooling";
             "Tool availability (filtered by policy):";
             "Tool names are case-sensitive. Call tools exactly as listed.";
             "- read: Read file contents";
             "- exec: Run shell commands (pty available for TTY-required CLIs)";
             "TOOLS.md does not control tool availability; it is user guidance for how to use external tools.";
             "If a task is more complex or takes longer, spawn a sub-agent. It will do the work for you and ping you when it's done. You can always check up on it." ]
         ++ rest).
Proof.
  apply (C4_canonical_order_with_descriptions "NO_REPLY" [] noFile joinSegments
           literalRender (withToolNames ["exec"; "read"] testParams)).
  - reflexivity.
  - left. reflexivity.
  - reflexivity.
Defined.

(** C8 (counterexample): a supplied text that is not empty but blank, of
    spaces or of a no-break space, gives no block; and in mode "none" no
    text does. *)
Lemma C8_blank_extra_counterexample :
  (exists prompt,
     buildAgentSystemPrompt "NO_REPLY" [] noFile joinSegments literalRender
       (withExtra "   " testParams) = Returns prompt
     /\ includes prompt "## Group Chat Context" = false)
  /\ (exists prompt,
        buildAgentSystemPrompt "NO_REPLY" [] noFile joinSegments literalRender
          (withExtra nbsp (withMode minimal testParams)) = Returns prompt
        /\ includes prompt "## Subagent Context" = false)
  /\ buildAgentSystemPrompt "NO_REPLY" [] noFile joinSegments literalRender
       (withExtra "Be brief." (withMode none testParams))
     = Returns "You are a personal assistant running inside OpenClaw.".
Proof.
  split; [|split]; [| |reflexivity]; eexists; split; vm_compute; reflexivity.
Qed.

Lemma C8_witness :
  exists prompt,
    buildAgentSystemPrompt "NO_REPLY" [] noFile joinSegments literalRender
      (withExtra " Be brief. " (withMode minimal testParams)) = Returns prompt
    /\ includes prompt
         ("## Subagent Context" ++ nl ++ "Be brief." ++ nl
          ++ "## Subagent Context" ++ nl ++ "Be brief.") = true.
Proof.
  destruct (C8_extra_context_twice "NO_REPLY" [] noFile joinSegments literalRender
              (withExtra " Be brief. " (withMode minimal testParams)) " Be brief. ")
    as [Htwice _].
  - reflexivity.
  - reflexivity.
  - destruct Htwice as [prompt [header [Hprompt [Hheader [_ [_ Htwice]]]]]].
    + discriminate.
    + discriminate.
    + exists prompt. split; [exact Hprompt|]. rewrite Hheader in Htwice.
      exact Htwice.
Defined.

Lemma C10_witness :
  exists rest,
    buildAgentSystemPrompt "NO_REPLY" [] noFile joinSegments literalRender
      (withToolNames [" "; ""] testParams)
    = Returns (join nl FALLBACK_TOOLING ++ rest).
Proof.
  apply (C10_fallback_tool_list "NO_REPLY" [] noFile joinSegments literalRender
           (withToolNames [" "; ""] testParams)).
  - reflexivity.
  - left. reflexivity.
  - repeat constructor.
Defined.

(** ** The persona line of the Project Context section (C9) *)












(** ** Minimal mode (C5) *)

Lemma selfUpdate_minimal (g : bool) : buildOpenClawSelfUpdateSection g true = [].
Proof. now destruct g. Qed.

Lemma modelAliases_minimal (a : option (list string)) :
  buildModelAliasesSection a true = [].
Proof.
  destruct a as [a|]; [|reflexivity]. unfold buildModelAliasesSection.
  now rewrite orb_true_r.
Qed.

Lemma docs_minimal (d : option string) (name : string) :
  buildDocsSection d true name = [].
Proof. unfold buildDocsSection. now rewrite orb_true_r. Qed.

Lemma userIdentity_minimal (o : option string) : buildUserIdentitySection o true = [].
Proof. unfold buildUserIdentitySection. now rewrite orb_true_r. Qed.

Lemma extra_inline (e : option string) (m : PromptMode) :
  (if truthy_opt e then [ contextHeader m; orElse e ""; "" ] else [])
  = buildExtraSystemPromptSection e m.
Proof. unfold buildExtraSystemPromptSection. now destruct (truthy_opt e). Qed.

Section MinimalMode.

Variable SILENT_REPLY_TOKEN : string.
Variable listDeliverableMessageChannels : list string.
Variable readFileSync : string -> ReadResult.
Variable path_join : string -> string -> string.
Variable renderString : string -> TemplateContext.t -> Completion.

Local Abbreviation build :=
  (buildAgentSystemPrompt SILENT_REPLY_TOKEN listDeliverableMessageChannels
     readFileSync path_join renderString).
Local Abbreviation allLines :=
  (lines SILENT_REPLY_TOKEN listDeliverableMessageChannels).

(** In minimal mode [lines] is made of these sections only. *)
Lemma lines_minimal (p : Params.t) :
  promptMode p = minimal ->
  allLines p =
  (([ IDENTITY_LINE; "" ]
    ++ buildToolCallStyleSection
    ++ buildSafetySection
    ++ buildOpenClawCLISection
    ++ buildWorkspaceSection (Params.workspaceDir p) (workspaceNotes p)
    ++ buildSandboxSection (orElse (Params.sandboxInfo p) noSandbox)
    ++ buildTimeSection (userTimezone p)
    ++ [ "## Workspace Files (injected)";
         "These user-editable files are loaded by OpenClaw and included below in Project Context.";
         "" ]
    ++ buildProjectContextSection (Params.contextFiles p)
    ++ buildExtraSystemPromptSection (extraSystemPrompt p) minimal)
   ++ buildExtraSystemPromptSection (extraSystemPrompt p) minimal
   ++ buildReactionsSection (Params.reactionGuidance p)
   ++ buildReasoningFormatSection (reasoningHint p)
   ++ buildRuntimeSection
        (buildRuntimeLine (runtimeInfo p) (runtimeChannel p)
           (runtimeCapabilities p) (Params.defaultThinkLevel p))
        (reasoningLevel p) (Params.defaultThinkLevel p))%list.
Proof.
  intros Hmode. unfold lines, initialLines, isMinimal. rewrite Hmode.
  rewrite selfUpdate_minimal, modelAliases_minimal, docs_minimal,
    userIdentity_minimal, extra_inline.
  reflexivity.
Qed.



End MinimalMode.



(** ** Joining the sections (C6) *)

Lemma prefix_one (c a : ascii) (s : string) :
  String.prefix (String c "") (String a s) = Ascii.eqb a c.
Proof.
  simpl. destruct (ascii_dec c a) as [->|Hn].
  - rewrite Ascii.eqb_refl. now destruct s.
  - symmetry. apply Ascii.eqb_neq. congruence.
Qed.

Lemma prefix_nl_app (x y : string) :
  truthy x = true -> String.prefix nl (x ++ y) = String.prefix nl x.
Proof.
  destruct x as [|a r]; [discriminate|]. intros _.
  change (String a r ++ y) with (String a (r ++ y)). unfold nl.
  now rewrite !prefix_one.
Qed.

Lemma blank_line_halves (h1 h2 : string) :
  nl ++ nl = h1 ++ h2 -> h1 <> "" -> h2 <> "" -> h1 = nl /\ h2 = nl.
Proof.
  intros E N1 N2. destruct h1 as [|c1 [|c2 h1]]; [contradiction | |].
  - simpl in E. injection E as <- <-. now split.
  - simpl in E. injection E as _ _ E. destruct h1; [|discriminate].
    simpl in E. subst h2. contradiction.
Qed.

(** Entries that neither hold nor border a blank line are joined without
    any blank line. *)
Lemma join_no_blank_line (ls : list string) :
  Forall (fun l => blank_free l = true /\ truthy l = true) ls ->
  ~ occurs (nl ++ nl) (join nl ls)
  /\ (ls <> [] -> String.prefix nl (join nl ls) = false).
Proof.
  induction 1 as [|x ls [Hx Htx] Hls [IHo IHp]].
  - split; [|contradiction]. intros Ho. apply occurs_nil in Ho. discriminate.
  - unfold blank_free in Hx.
    apply andb_true_iff in Hx as [Hx Hend]. apply andb_true_iff in Hx as [Hin Hpre].
    apply negb_true_iff in Hin, Hpre, Hend. apply includes_false in Hin.
    destruct ls as [|y r].
    + split; [exact Hin | intros _; exact Hpre].
    + rewrite join_cons_cons. split.
      * intros Ho. destruct (occurs_app_inv _ _ _ Ho) as [H|[H|H]].
        -- contradiction.
        -- destruct (occurs_app_inv _ _ _ H) as [H'|[H'|H']].
           ++ apply includes_occurs in H'. discriminate.
           ++ contradiction.
           ++ destruct H' as [h1 [h2 [E [N1 [N2 [_ [b Hb]]]]]]].
              destruct (blank_line_halves _ _ E N1 N2) as [_ ->].
              assert (String.prefix nl (join nl (y :: r)) = true)
                by (apply prefix_spec; now exists b).
              rewrite IHp in *; discriminate.
        -- destruct H as [h1 [h2 [E [N1 [N2 [[a Ha] _]]]]]].
           destruct (blank_line_halves _ _ E N1 N2) as [-> _].
           assert (ends_with x nl = true) by (apply ends_with_spec; now exists a).
           congruence.
      * intros _. rewrite prefix_nl_app by exact Htx. exact Hpre.
Qed.

Section Joining.

Variable SILENT_REPLY_TOKEN : string.
Variable listDeliverableMessageChannels : list string.
Variable readFileSync : string -> ReadResult.
Variable path_join : string -> string -> string.
Variable renderString : string -> TemplateContext.t -> Completion.

Local Abbreviation build :=
  (buildAgentSystemPrompt SILENT_REPLY_TOKEN listDeliverableMessageChannels
     readFileSync path_join renderString).
Local Abbreviation allLines :=
  (lines SILENT_REPLY_TOKEN listDeliverableMessageChannels).

(** C6 (amended): in the default path the prompt is the entries of
    [lines] that are not empty, joined by single newlines: the empty
    strings that end the sections are dropped, so a section follows the
    previous one on the next line (Tool Call Style, Safety and the CLI
    reference always do), left-out sections leave no gap, and no blank
    line comes from the assembly: the prompt has one only if an entry
    holds or borders one. *)
Theorem C6_sections_joined_by_single_newlines (p : Params.t) :
  noOverride readFileSync path_join p ->
  promptMode p <> none ->
  exists prompt,
    build p = Returns prompt
    /\ prompt = join nl (filter_Boolean (allLines p))
    /\ Forall (fun l => l <> "") (filter_Boolean (allLines p))
    /\ includes prompt
         (sectionText (buildToolCallStyleSection ++ buildSafetySection
                       ++ buildOpenClawCLISection)) = true
    /\ (forallb blank_free (allLines p) = true ->
        includes prompt (nl ++ nl) = false).
Proof.
  intros Hno Hmode. rewrite (default_path _ _ _ _ _ _ Hno).
  exists (join nl (filter_Boolean (allLines p))).
  split; [destruct (promptMode p); [reflexivity | reflexivity | contradiction]|].
  split; [reflexivity|]. split; [|split].
  - apply Forall_forall. intros l Hl. apply filter_In in Hl as [_ Hl].
    now apply truthy_true.
  - apply includes_occurs, block_occurs. unfold lines, initialLines.
    apply block_front. do 2 apply block_skip.
    match goal with
    | |- block _ (_ ++ _ ++ _ ++ ?R)%list => exists [], R
    end.
    now rewrite <- !app_assoc.
  - intros Hfree. apply includes_false. apply join_no_blank_line.
    rewrite forallb_forall in Hfree.
    apply Forall_forall. intros l Hl. apply filter_In in Hl as [Hl Ht].
    split; [now apply Hfree | exact Ht].
Qed.

End Joining.

(** C6 (counterexample): the prompt of the repository's test call has
    several sections and not one blank line; the Safety header is on the
    line after the last line of Tool Call Style. *)
Lemma C6_no_blank_line_counterexample :
  exists prompt,
    buildAgentSystemPrompt "NO_REPLY" [] noFile joinSegments literalRender
      testParams = Returns prompt
    /\ includes prompt
         ("Use plain human language for narration unless in a technical context."
          ++ nl ++ "## Safety") = true
    /\ includes prompt (nl ++ nl) = false.
Proof.
  eexists. split; [vm_compute; reflexivity|]. split; vm_compute; reflexivity.
Qed.

Lemma C6_witness :
  exists prompt,
    buildAgentSystemPrompt "NO_REPLY" [] noFile joinSegments literalRender
      testParams = Returns prompt
    /\ includes prompt (nl ++ nl) = false.
Proof.
  destruct (C6_sections_joined_by_single_newlines "NO_REPLY" [] noFile
              joinSegments literalRender testParams eq_refl)
    as [prompt [Hprompt [_ [_ [_ Hblank]]]]].
  - discriminate.
  - exists prompt. split; [exact Hprompt|]. apply Hblank. vm_compute. reflexivity.
Defined.

(** * Further properties of the code *)

(** ** Sets, maps and sorting as the code uses them *)

Lemma has_In (ls : list string) (x : string) : has ls x = true <-> In x ls.
Proof.
  unfold has. rewrite existsb_exists. split.
  - intros [y [Hy E]]. apply String.eqb_eq in E. now subst.
  - intros Hx. exists x. split; [exact Hx | apply String.eqb_refl].
Qed.

Lemma has_false (ls : list string) (x : string) : has ls x = false <-> ~ In x ls.
Proof.
  rewrite <- has_In. destruct (has ls x); split; intros; congruence.
Qed.

Lemma newSet_from_In (seen ls : list string) (x : string) :
  In x (newSet_from seen ls) <-> In x ls /\ ~ In x seen.
Proof.
  revert seen. induction ls as [|y r IH]; intros seen; simpl.
  - tauto.
  - destruct (has seen y) eqn:Hy.
    + apply has_In in Hy. rewrite IH. split.
      * intros [Hr Hs]. tauto.
      * intros [[<-|Hr] Hs]; [contradiction | tauto].
    + apply has_false in Hy. simpl. rewrite IH. simpl. split.
      * intros [<-|[Hr Hs]]; tauto.
      * intros [[<-|Hr] Hs]; [now left|].
        destruct (string_dec y x) as [->|Hn]; [now left | right; tauto].
Qed.

Lemma newSet_from_NoDup (seen ls : list string) : NoDup (newSet_from seen ls).
Proof.
  revert seen. induction ls as [|y r IH]; intros seen; simpl.
  - constructor.
  - destruct (has seen y); [apply IH|]. constructor; [|apply IH].
    rewrite newSet_from_In. simpl. tauto.
Qed.

Lemma newSet_In (ls : list string) (x : string) : In x (newSet ls) <-> In x ls.
Proof. unfold newSet. rewrite newSet_from_In. simpl. tauto. Qed.

Lemma has_newSet (ls : list string) (x : string) : has (newSet ls) x = has ls x.
Proof.
  apply eq_true_iff_eq. now rewrite !has_In, newSet_In.
Qed.

Lemma sorted_insert_Permutation (x : string) (ls : list string) :
  Permutation (x :: ls) (sorted_insert x ls).
Proof.
  induction ls as [|y r IH]; cbn [sorted_insert]; [reflexivity|].
  destruct (code_unit_leb x y); [reflexivity|].
  rewrite perm_swap. now apply perm_skip.
Qed.

Lemma toSorted_Permutation (ls : list string) : Permutation ls (toSorted ls).
Proof.
  induction ls as [|x r IH]; simpl; [constructor|].
  rewrite <- sorted_insert_Permutation. now apply perm_skip.
Qed.




Lemma map_get_set (m : StrMap) (k v k' : string) :
  map_get (map_set m k v) k'
  = if String.eqb k' k then Some v else map_get m k'.
Proof.
  induction m as [|[k0 v0] r IH]; simpl; [reflexivity|].
  destruct (String.eqb k k0) eqn:E0; simpl.
  - apply String.eqb_eq in E0. subst k0. now destruct (String.eqb k' k).
  - rewrite IH. destruct (String.eqb k' k0) eqn:E1; [|reflexivity].
    apply String.eqb_eq in E1. subst k'. rewrite String.eqb_sym, E0. reflexivity.
Qed.

Lemma map_get_In (m : StrMap) (k v : string) :
  map_get m k = Some v -> In (k, v) m.
Proof.
  induction m as [|[k0 v0] r IH]; simpl; [discriminate|].
  destruct (String.eqb k k0) eqn:E.
  - apply String.eqb_eq in E. intros H. injection H as <-. subst. now left.
  - intros H. right. now apply IH.
Qed.

Lemma toLowerCase_truthy (s : string) : truthy (toLowerCase s) = truthy s.
Proof. now destruct s. Qed.

Lemma filter_Boolean_In (l : string) (ls : list string) :
  In l (filter_Boolean ls) <-> In l ls /\ l <> "".
Proof.
  unfold filter_Boolean. now rewrite filter_In, truthy_true.
Qed.

(** Normalising a list of names: trim, drop the blank ones, lower-case. *)
Lemma normalized_In (names : list string) (t : string) :
  In t (map toLowerCase (filter_Boolean (map trim names)))
  <-> t <> "" /\ exists raw, In raw names /\ normalizesTo t raw.
Proof.
  unfold normalizesTo. rewrite in_map_iff. split.
  - intros [c [<- Hc]]. apply filter_Boolean_In in Hc as [Hc Hne].
    apply in_map_iff in Hc as [raw [<- Hraw]]. split.
    + apply truthy_true. rewrite toLowerCase_truthy. now apply truthy_true.
    + now exists raw.
  - intros [Hne [raw [Hraw <-]]]. exists (trim raw). split; [reflexivity|].
    apply filter_Boolean_In. split; [now apply in_map|].
    apply truthy_true. rewrite <- toLowerCase_truthy. now apply truthy_true.
Qed.

(** ** The tool list *)

Lemma toolLines_listedTools (p : Params.t) :
  toolLines p = map (toolLine p) (listedTools p).
Proof. unfold toolLines, listedTools. now rewrite map_app. Qed.

Lemma enabledTools_In (p : Params.t) (t : string) :
  In t (enabledTools p) <-> In t toolOrder /\ In t (normalizedTools p).
Proof.
  unfold enabledTools, availableTools. rewrite filter_In, has_newSet, has_In.
  reflexivity.
Qed.

Lemma extraTools_In (p : Params.t) (t : string) :
  In t (extraTools p) <-> In t (normalizedTools p) /\ ~ In t toolOrder.
Proof.
  unfold extraTools. rewrite newSet_In, filter_In, negb_true_iff, has_false.
  reflexivity.
Qed.

Lemma toolOrder_NoDup : NoDup toolOrder.
Proof.
  unfold toolOrder.
  repeat (constructor; [simpl; intuition discriminate|]). constructor.
Qed.

(** X1: for tool names in ASCII, each tool of the caller has one line, and
    there is no other line: the listed tools are the set of available
    tools, without repetition, however often and in whatever casing the
    caller names a tool. *)
Theorem listedTools_each_once (p : Params.t) :
  asciiNames p ->
  toolLines p = map (toolLine p) (listedTools p)
  /\ NoDup (listedTools p)
  /\ Permutation (availableTools p) (listedTools p)
  /\ (forall t, In t (listedTools p)
                <-> t <> "" /\ exists raw, In raw (orElse (Params.toolNames p) [])
                                          /\ normalizesTo t raw).
Proof.
  intros _.
  assert (Hmem : forall t, In t (listedTools p) <-> In t (normalizedTools p)).
  { intros t. unfold listedTools. rewrite in_app_iff, enabledTools_In.
    rewrite <- (Permutation_in' (eq_refl t) (toSorted_Permutation (extraTools p))).
    rewrite extraTools_In.
    destruct (in_dec string_dec t toolOrder); tauto. }
  assert (Hnodup : NoDup (listedTools p)).
  { unfold listedTools. apply NoDup_app.
    - unfold enabledTools. apply NoDup_filter, toolOrder_NoDup.
    - apply (Permutation_NoDup (toSorted_Permutation (extraTools p))).
      apply newSet_from_NoDup.
    - intros t Henabled Hextra. apply enabledTools_In in Henabled as [Hin _].
      apply (Permutation_in _ (Permutation_sym (toSorted_Permutation _))) in Hextra.
      apply extraTools_In in Hextra as [_ Hout]. contradiction. }
  split; [apply toolLines_listedTools|]. split; [exact Hnodup|]. split.
  - apply NoDup_Permutation; [apply newSet_from_NoDup | exact Hnodup|].
    intros t. unfold availableTools. now rewrite newSet_In, Hmem.
  - intros t. rewrite Hmem. apply normalized_In.
Qed.

Lemma listedTools_each_once_witness :
  toolLines (withToolNames [ "Read"; " read"; "my_tool"; "READ" ] testParams)
  = map (toolLine (withToolNames [ "Read"; " read"; "my_tool"; "READ" ] testParams))
        [ "read"; "my_tool" ].
Proof.
  destruct (listedTools_each_once
              (withToolNames [ "Read"; " read"; "my_tool"; "READ" ] testParams))
    as [Hlines _].
  - repeat constructor.
  - exact Hlines.
Defined.



(** The map that keeps the first casing seen. *)
Lemma canonical_fold (names : list string) (m : StrMap) (k : string) :
  map_get
    (fold_left
       (fun m name =>
          let normalized := toLowerCase name in
          if negb (map_has m normalized) then map_set m normalized name else m)
       names m) k
  = match map_get m k with
    | Some v => Some v
    | None => find (fun name => String.eqb (toLowerCase name) k) names
    end.
Proof.
  revert m. induction names as [|x r IH]; intros m; simpl.
  - now destruct (map_get m k).
  - rewrite IH. unfold map_has.
    destruct (map_get m (toLowerCase x)) as [v0|] eqn:Hx; simpl.
    + destruct (map_get m k) eqn:Hk; [reflexivity|].
      destruct (String.eqb (toLowerCase x) k) eqn:E; [|reflexivity].
      apply String.eqb_eq in E. congruence.
    + rewrite map_get_set. rewrite (String.eqb_sym k).
      destruct (String.eqb (toLowerCase x) k) eqn:E.
      * apply String.eqb_eq in E. subst k. now rewrite Hx.
      * reflexivity.
Qed.

(** X3: for tool names in ASCII, the name shown for a tool is the first of
    the caller's names (trimmed, blank ones apart) that lower-cases to it,
    and the tool's own normalised name when there is none. *)
Theorem resolveToolName_first_casing (p : Params.t) (normalized : string) :
  asciiNames p ->
  resolveToolName p normalized
  = orElse (find (fun name => String.eqb (toLowerCase name) normalized)
                 (canonicalToolNames p))
           normalized
  /\ (In normalized (normalizedTools p) ->
      toLowerCase (resolveToolName p normalized) = normalized
      /\ In (resolveToolName p normalized) (canonicalToolNames p)).
Proof.
  intros _.
  assert (Heq : resolveToolName p normalized
    = orElse (find (fun name => String.eqb (toLowerCase name) normalized)
                   (canonicalToolNames p)) normalized).
  { unfold resolveToolName, canonicalByNormalized. now rewrite canonical_fold. }
  split; [exact Heq|]. intros Hin. rewrite Heq.
  unfold normalizedTools in Hin. apply in_map_iff in Hin as [name [Hname Hin]].
  destruct (find (fun name => String.eqb (toLowerCase name) normalized)
                 (canonicalToolNames p)) as [first|] eqn:Hfind; simpl.
  - apply find_some in Hfind as [Hfirst E]. apply String.eqb_eq in E. now split.
  - exfalso. apply (find_none _ _ Hfind) in Hin.
    apply String.eqb_neq in Hin. contradiction.
Qed.

Lemma resolveToolName_first_casing_witness :
  resolveToolName (withToolNames [ " Exec "; "EXEC"; "read" ] testParams) "exec"
  = "Exec".
Proof.
  destruct (resolveToolName_first_casing
              (withToolNames [ " Exec "; "EXEC"; "read" ] testParams) "exec")
    as [Hname _].
  - repeat constructor.
  - rewrite Hname. reflexivity.
Defined.

(** X4: for tool names in ASCII, a tool is available when one of the
    caller's names stands for it, whatever its casing and the blanks around
    it.  For any names, the Self-Update section is gated ([hasGateway]) by a
    name that stands for "gateway". *)
Theorem availableTools_case_insensitive (p : Params.t) :
  (asciiNames p ->
   forall t, has (availableTools p) t = true
             <-> t <> "" /\ exists raw, In raw (orElse (Params.toolNames p) [])
                                        /\ normalizesTo t raw)
  /\ (hasGateway p = true
      <-> exists raw, In raw (orElse (Params.toolNames p) [])
                      /\ normalizesTo "gateway" raw).
Proof.
  assert (H : forall t, has (availableTools p) t = true
    <-> t <> "" /\ exists raw, In raw (orElse (Params.toolNames p) [])
                               /\ normalizesTo t raw).
  { intros t0. unfold availableTools. rewrite has_newSet, has_In.
    apply normalized_In. }
  split; [intros _; exact H|]. unfold hasGateway. rewrite H. split.
  - tauto.
  - intros Hraw. split; [discriminate | exact Hraw].
Qed.

(** A name with a no-break space before it and a space after it. *)
Lemma availableTools_case_insensitive_witness :
  hasGateway (withToolNames [ "read"; nbsp ++ "GateWay " ] testParams) = true.
Proof.
  apply (availableTools_case_insensitive
           (withToolNames [ "read"; nbsp ++ "GateWay " ] testParams)).
  exists (nbsp ++ "GateWay "). split; [right; left; reflexivity | reflexivity].
Defined.

(** X7: inline buttons count as enabled when one of the runtime capabilities is
    "inlinebuttons" up to the case of its letters and the white space around
    it. *)
Theorem inlineButtonsEnabled_case_insensitive (p : Params.t) :
  inlineButtonsEnabled p = true
  <-> exists r caps cap,
        Params.runtimeInfo p = Some r /\ RuntimeInfo.capabilities r = Some caps
        /\ In cap caps /\ normalizesTo "inlinebuttons" cap.
Proof.
  unfold inlineButtonsEnabled, runtimeCapabilitiesLower, runtimeCapabilities,
    runtimeInfo.
  rewrite has_newSet, has_In, normalized_In. split.
  - intros [_ [cap [Hcap Hnorm]]].
    destruct (Params.runtimeInfo p) as [r|]; [|destruct Hcap].
    destruct (RuntimeInfo.capabilities r) as [caps|] eqn:Hcaps; [|destruct Hcap].
    now exists r, caps, cap.
  - intros [r [caps [cap [-> [Hcaps [Hcap Hnorm]]]]]]. rewrite Hcaps.
    split; [discriminate | now exists cap].
Qed.

(** A capability with a no-break space before it and a space after it. *)
Lemma inlineButtonsEnabled_case_insensitive_witness :
  inlineButtonsEnabled
    (withRuntimeInfo
       (RuntimeInfo.mk None None None None None None None (Some "telegram")
          (Some [ "polls"; nbsp ++ "inlineButtons " ]) None)
       testParams) = true.
Proof.
  apply (inlineButtonsEnabled_case_insensitive
           (withRuntimeInfo
              (RuntimeInfo.mk None None None None None None None (Some "telegram")
                 (Some [ "polls"; nbsp ++ "inlineButtons " ]) None)
              testParams)).
  exists (RuntimeInfo.mk None None None None None None None (Some "telegram")
            (Some [ "polls"; nbsp ++ "inlineButtons " ]) None),
         [ "polls"; nbsp ++ "inlineButtons " ], (nbsp ++ "inlineButtons ").
  repeat split. right. left. reflexivity.
Defined.

(** ** Descriptions of the tools *)

Lemma find_app_first {A : Type} (f : A -> bool) (l1 l2 : list A) :
  find f (l1 ++ l2)
  = match find f l1 with
    | Some x => Some x
    | None => find f l2
    end.
Proof.
  induction l1 as [|x r IH]; simpl; [reflexivity|]. now destruct (f x).
Qed.

(** The step of the loop that fills [externalToolSummaries]. *)
Lemma external_step_get (m : StrMap) (key value k : string) :
  map_get
    (let normalized := toLowerCase (trim key) in
     if negb (truthy normalized) || negb (truthy (trim value)) then m
     else map_set m normalized (trim value)) k
  = if truthy (toLowerCase (trim key)) && truthy (trim value)
       && String.eqb k (toLowerCase (trim key))
    then Some (trim value) else map_get m k.
Proof.
  cbv zeta.
  destruct (truthy (toLowerCase (trim key))); simpl; [|reflexivity].
  destruct (truthy (trim value)); simpl; [|reflexivity].
  apply map_get_set.
Qed.

Lemma external_fold (entries : list (string * string)) (m : StrMap) (k : string) :
  map_get
    (fold_left
       (fun m (entry : string * string) =>
          let (key, value) := entry in
          let normalized := toLowerCase (trim key) in
          if negb (truthy normalized) || negb (truthy (trim value)) then m
          else map_set m normalized (trim value))
       entries m) k
  = match find (fun entry : string * string =>
                  truthy (toLowerCase (trim (fst entry)))
                  && truthy (trim (snd entry))
                  && String.eqb k (toLowerCase (trim (fst entry))))
               (rev entries) with
    | Some entry => Some (trim (snd entry))
    | None => map_get m k
    end.
Proof.
  revert m. induction entries as [|[key value] r IH]; intros m; simpl.
  - reflexivity.
  - rewrite IH, external_step_get.
    rewrite find_app_first. simpl.
    destruct (find _ (rev r)); [reflexivity|].
    now destruct (truthy (toLowerCase (trim key)) && truthy (trim value)
                  && String.eqb k (toLowerCase (trim key))).
Qed.

Lemma external_lookup (p : Params.t) (k : string) :
  map_get (externalToolSummaries p) k
  = option_map (fun entry => trim (snd entry))
      (find (fun entry : string * string =>
               truthy (toLowerCase (trim (fst entry)))
               && truthy (trim (snd entry))
               && String.eqb k (toLowerCase (trim (fst entry))))
            (rev (orElse (Params.toolSummaries p) []))).
Proof.
  unfold externalToolSummaries. rewrite external_fold. now destruct (find _ _).
Qed.

Lemma external_lookup_entry (p : Params.t) (k v : string) :
  map_get (externalToolSummaries p) k = Some v ->
  k <> "" /\ v <> ""
  /\ exists key value,
       In (key, value) (orElse (Params.toolSummaries p) [])
       /\ normalizesTo k key /\ trim value = v.
Proof.
  intros Hv. rewrite external_lookup in Hv.
  destruct (find _ _) as [[key value]|] eqn:Hfind; [|discriminate].
  simpl in Hv. injection Hv as <-.
  apply find_some in Hfind as [Hin Hok]. simpl in Hok.
  apply andb_true_iff in Hok as [Hok Hk]. apply andb_true_iff in Hok as [Hkey Hval].
  apply String.eqb_eq in Hk. apply truthy_true in Hkey, Hval.
  split; [now subst k|]. split; [exact Hval|].
  exists key, value. split; [now apply in_rev | split; [now symmetry | reflexivity]].
Qed.

(** X6: for keys in ASCII, a description of the caller is kept under the
    normalised name of its key, trimmed; entries with a blank key or a blank
    description are skipped, and of two entries for one name the one that
    [Object.entries] gives later counts. *)
Theorem externalToolSummaries_lookup (p : Params.t) (k : string) :
  asciiKeys p ->
  map_get (externalToolSummaries p) k
  = option_map (fun entry => trim (snd entry))
      (find (fun entry : string * string =>
               truthy (toLowerCase (trim (fst entry)))
               && truthy (trim (snd entry))
               && String.eqb k (toLowerCase (trim (fst entry))))
            (rev (orElse (Params.toolSummaries p) [])))
  /\ (forall v, map_get (externalToolSummaries p) k = Some v ->
                k <> "" /\ v <> ""
                /\ exists key value,
                     In (key, value) (orElse (Params.toolSummaries p) [])
                     /\ normalizesTo k key /\ trim value = v).
Proof.
  intros _. split; [apply external_lookup | apply external_lookup_entry].
Qed.

Lemma externalToolSummaries_lookup_witness :
  map_get
    (externalToolSummaries
       (withToolSummaries
          [ ("My_Tool ", " first "); ("", "no key"); (" my_tool", "second");
            ("other", "  ") ]
          testParams))
    "my_tool"
  = Some "second".
Proof.
  destruct (externalToolSummaries_lookup
              (withToolSummaries
                 [ ("My_Tool ", " first "); ("", "no key"); (" my_tool", "second");
                   ("other", "  ") ]
                 testParams)
              "my_tool") as [Hlookup _].
  - repeat constructor.
  - rewrite Hlookup. reflexivity.
Defined.

Lemma summaries_truthy (m : StrMap) (tool s : string) :
  forallb (fun kv : string * string => truthy (snd kv)) m = true ->
  map_get m tool = Some s -> truthy s = true.
Proof.
  intros Hall H. apply map_get_In in H.
  rewrite forallb_forall in Hall. exact (Hall _ H).
Qed.

Lemma toolLine_cases (p : Params.t) (tool : string) :
  toolLine p tool
  = match map_get coreToolSummaries tool with
    | Some s => "- " ++ resolveToolName p tool ++ ": " ++ s
    | None =>
        match map_get objectPrototypeMembers tool with
        | Some member => "- " ++ resolveToolName p tool ++ ": " ++ member
        | None =>
            match map_get (externalToolSummaries p) tool with
            | Some s => "- " ++ resolveToolName p tool ++ ": " ++ s
            | None => "- " ++ resolveToolName p tool
            end
        end
    end.
Proof.
  unfold toolLine, coreToolSummary.
  destruct (map_get coreToolSummaries tool) as [s|] eqn:Hcore.
  - cbn [truthy_opt orElse].
    now rewrite (summaries_truthy coreToolSummaries _ _ eq_refl Hcore).
  - destruct (map_get objectPrototypeMembers tool) as [member|] eqn:Hmember.
    + cbn [truthy_opt orElse].
      now rewrite (summaries_truthy objectPrototypeMembers _ _ eq_refl Hmember).
    + destruct (map_get (externalToolSummaries p) tool) as [s|] eqn:Hext;
        cbn [truthy_opt orElse]; [|reflexivity].
      destruct (external_lookup_entry p tool s Hext) as [_ [Hs _]].
      apply truthy_true in Hs. now rewrite Hs.
Qed.

(** X5: the line of a tool: the built-in description if the tool has one;
    else, for a tool named as a member of [Object.prototype] ("constructor",
    "__proto__", ...), that member as text; else the caller's description
    if there is one for its name; else the name alone.  A description of
    the caller never replaces a built-in one, and every tool of the fixed
    order has a built-in one, so that its line is never the name alone. *)
Theorem toolLine_description (p : Params.t) (tool : string) :
  toolLine p tool
  = match map_get coreToolSummaries tool with
    | Some s => "- " ++ resolveToolName p tool ++ ": " ++ s
    | None =>
        match map_get objectPrototypeMembers tool with
        | Some member => "- " ++ resolveToolName p tool ++ ": " ++ member
        | None =>
            match map_get (externalToolSummaries p) tool with
            | Some s => "- " ++ resolveToolName p tool ++ ": " ++ s
            | None => "- " ++ resolveToolName p tool
            end
        end
    end
  /\ (In tool toolOrder ->
      exists s, map_get coreToolSummaries tool = Some s
                /\ toolLine p tool = "- " ++ resolveToolName p tool ++ ": " ++ s).
Proof.
  split; [apply toolLine_cases|]. intros Horder.
  assert (Hall : forallb (fun t => map_has coreToolSummaries t) toolOrder = true)
    by reflexivity.
  rewrite forallb_forall in Hall. specialize (Hall _ Horder).
  unfold map_has in Hall. rewrite toolLine_cases.
  destruct (map_get coreToolSummaries tool) as [s|]; [|discriminate].
  now exists s.
Qed.

(** ** The runtime line *)

Lemma join_snoc (sep t : string) (ls : list string) :
  join sep (ls ++ [t])
  = match ls with
    | [] => t
    | _ => join sep ls ++ sep ++ t
    end.
Proof.
  destruct ls as [|x r]; [reflexivity|]. apply join_app; discriminate.
Qed.

(** X8: the thinking level is always the last token of the runtime line, alone
    or after a separator. *)
Theorem buildRuntimeLine_ends_with_thinking
    (runtimeInfo : option RuntimeInfo.t) (runtimeChannel : option string)
    (runtimeCapabilities : list string) (defaultThinkLevel : option string) :
  exists middle,
    buildRuntimeLine runtimeInfo runtimeChannel runtimeCapabilities
      defaultThinkLevel
    = "Runtime: " ++ middle ++ "thinking=" ++ orElse defaultThinkLevel "off"
    /\ (middle = "" \/ ends_with middle " | " = true).
Proof.
  unfold buildRuntimeLine.
  match goal with
  | |- context [filter_Boolean [?a; ?b; ?c; ?d; ?e; ?f; ?g; ?h; ?i; ?t]] =>
      change [a; b; c; d; e; f; g; h; i; t]
        with ([a; b; c; d; e; f; g; h; i] ++ [t])%list;
      rewrite filter_Boolean_app;
      change (filter_Boolean [t]) with [t];
      destruct (filter_Boolean [a; b; c; d; e; f; g; h; i]) as [|x r]
  end.
  - exists "". split; [reflexivity | now left].
  - rewrite join_snoc. exists (join " | " (x :: r) ++ " | "). split.
    + now rewrite !append_assoc.
    + right. apply ends_with_spec. now exists (join " | " (x :: r)).
Qed.

(** X9: the channel and the capabilities are shown together, right before the
    thinking level, when a channel is known; without a channel the
    capabilities do not show at all. *)
Theorem buildRuntimeLine_channel_and_capabilities
    (runtimeInfo : option RuntimeInfo.t) (runtimeChannel : option string)
    (runtimeCapabilities : list string) (defaultThinkLevel : option string) :
  (forall channel,
     runtimeChannel = Some channel -> channel <> "" ->
     exists before,
       buildRuntimeLine runtimeInfo runtimeChannel runtimeCapabilities
         defaultThinkLevel
       = before ++ "channel=" ++ channel ++ " | capabilities="
         ++ (match runtimeCapabilities with
             | [] => "none"
             | _ => join "," runtimeCapabilities
             end)
         ++ " | thinking=" ++ orElse defaultThinkLevel "off")
  /\ (truthy_opt runtimeChannel = false ->
      forall otherCapabilities,
        buildRuntimeLine runtimeInfo runtimeChannel runtimeCapabilities
          defaultThinkLevel
        = buildRuntimeLine runtimeInfo runtimeChannel otherCapabilities
            defaultThinkLevel).
Proof.
  split.
  - intros channel -> Hne. apply truthy_true in Hne.
    unfold buildRuntimeLine, whenSet. cbn [truthy_opt orElse]. rewrite Hne.
    match goal with
    | |- context [filter_Boolean [?a; ?b; ?c; ?d; ?e; ?f; ?g; ?h; ?i; ?t]] =>
        change [a; b; c; d; e; f; g; h; i; t]
          with ([a; b; c; d; e; f; g] ++ [h; i; t])%list;
        rewrite filter_Boolean_app;
        change (filter_Boolean [h; i; t]) with [h; i; t];
        destruct (join_suffix " | " (filter_Boolean [a; b; c; d; e; f; g]) [h; i; t])
          as [before ->]
    end.
    exists ("Runtime: " ++ before). rewrite !append_assoc. do 3 f_equal.
    rewrite !join_cons_cons. cbn [join String.concat].
    destruct runtimeCapabilities; rewrite !append_assoc; reflexivity.
  - intros Hch other. unfold buildRuntimeLine. now rewrite Hch.
Qed.

(** ** What the prompt does not depend on *)

Section Independence.

Variable SILENT_REPLY_TOKEN : string.
Variable listDeliverableMessageChannels : list string.
Variable readFileSync : string -> ReadResult.
Variable path_join : string -> string -> string.
Variable renderString : string -> TemplateContext.t -> Completion.

Local Abbreviation build :=
  (buildAgentSystemPrompt SILENT_REPLY_TOKEN listDeliverableMessageChannels
     readFileSync path_join renderString).
Local Abbreviation allLines :=
  (lines SILENT_REPLY_TOKEN listDeliverableMessageChannels).

(** X10: the clock reading of the caller ([userTime], [userTimeFormat]) reaches
    neither the prompt nor the template context: only the time zone
    does. *)
Theorem clock_never_shown (p : Params.t) (userTime userTimeFormat : option string) :
  build (withClock userTime userTimeFormat p) = build p
  /\ templateContext listDeliverableMessageChannels
       (withClock userTime userTimeFormat p)
     = templateContext listDeliverableMessageChannels p.
Proof.
  unfold buildAgentSystemPrompt, templateContext, lines, initialLines,
    toolLines, toolLine, enabledTools, extraTools, availableTools,
    normalizedTools, resolveToolName, canonicalByNormalized, canonicalToolNames,
    rawToolNames, externalToolSummaries, hasGateway, readToolName, execToolName,
    processToolName, extraSystemPrompt, ownerLine, ownerNumbers, reasoningHint,
    reasoningLevel, userTimezone, skillsPrompt, heartbeatPrompt, runtimeChannel,
    runtimeCapabilities, inlineButtonsEnabled, runtimeCapabilitiesLower,
    runtimeInfo, isMinimal, promptMode, workspaceNotes, withClock.
  cbn [Params.workspaceDir Params.defaultThinkLevel Params.reasoningLevel
       Params.extraSystemPrompt Params.ownerNumbers Params.reasoningTagHint
       Params.toolNames Params.toolSummaries Params.modelAliasLines
       Params.userTimezone Params.contextFiles Params.skillsPrompt
       Params.heartbeatPrompt Params.docsPath Params.workspaceNotes
       Params.ttsHint Params.promptMode Params.runtimeInfo
       Params.messageToolHints Params.sandboxInfo Params.reactionGuidance
       Params.memoryCitationsMode].
  split; reflexivity.
Qed.

(** X11: the prompt of minimal mode reads eleven fields of the call and no
    other: two calls that agree on them get the same prompt, whatever their
    tool names and descriptions, skills, heartbeat prompt, documentation
    path, owner numbers, model aliases, voice hint and message hints. *)
Theorem minimal_prompt_inputs (p q : Params.t) :
  noOverride readFileSync path_join p ->
  noOverride readFileSync path_join q ->
  Params.promptMode p = Some minimal ->
  Params.promptMode q = Some minimal ->
  minimalInputs p = minimalInputs q ->
  build p = build q.
Proof.
  intros Hp Hq Hmp Hmq Hsame.
  assert (Hminp : promptMode p = minimal) by (unfold promptMode; now rewrite Hmp).
  assert (Hminq : promptMode q = minimal) by (unfold promptMode; now rewrite Hmq).
  rewrite (default_path _ _ _ _ _ _ Hp), (default_path _ _ _ _ _ _ Hq), Hminp, Hminq.
  rewrite (lines_minimal _ _ p Hminp), (lines_minimal _ _ q Hminq).
  unfold minimalInputs in Hsame.
  injection Hsame as Hdir Hnotes Hsandbox Htz Hfiles Hextra Hreact Hhint Hruntime
    Hthink Hreason.
  unfold workspaceNotes, userTimezone, extraSystemPrompt, reasoningHint,
    runtimeChannel, runtimeCapabilities, runtimeInfo, reasoningLevel.
  rewrite Hdir, Hnotes, Hsandbox, Htz, Hfiles, Hextra, Hreact, Hhint,
    Hruntime, Hthink, Hreason.
  reflexivity.
Qed.

End Independence.

Lemma minimal_prompt_inputs_witness :
  buildAgentSystemPrompt "NO_REPLY" [] noFile joinSegments literalRender
    (withMode minimal testParams)
  = buildAgentSystemPrompt "NO_REPLY" [] noFile joinSegments literalRender
      (withToolNames [ "exec"; "gateway" ] (withMode minimal testParams)).
Proof.
  apply (minimal_prompt_inputs "NO_REPLY" [] noFile joinSegments literalRender
           (withMode minimal testParams)
           (withToolNames [ "exec"; "gateway" ] (withMode minimal testParams)));
    reflexivity.
Defined.

(** ** The prompt as a sequence of sections *)

Lemma join_truthy_nil (sep : string) (ls : list string) :
  Forall (fun l => truthy l = true) ls -> join sep ls = "" -> ls = [].
Proof.
  intros Hall Hjoin. destruct ls as [|x r]; [reflexivity|]. exfalso.
  inversion Hall as [|? ? Hx _]; subst.
  destruct x as [|c x]; [discriminate|].
  destruct r; simpl in Hjoin; discriminate.
Qed.

Lemma filter_Boolean_truthy (ls : list string) :
  Forall (fun l => truthy l = true) (filter_Boolean ls).
Proof. apply Forall_forall. intros l Hl. now apply filter_In in Hl. Qed.

Lemma sectionText_truthy (section : list string) :
  truthy (sectionText section) = false <-> filter_Boolean section = [].
Proof.
  unfold sectionText. rewrite truthy_false. split.
  - apply join_truthy_nil, filter_Boolean_truthy.
  - now intros ->.
Qed.

(** Joining the entries of several sections is joining the texts of the
    sections that have one. *)
Lemma join_sections (Ls : list (list string)) :
  join nl (filter_Boolean (concat Ls))
  = join nl (filter_Boolean (map sectionText Ls))
  /\ (filter_Boolean (concat Ls) = []
      <-> filter_Boolean (map sectionText Ls) = []).
Proof.
  induction Ls as [|L Ls [IHjoin IHnil]]; [now split|].
  cbn [concat map]. rewrite filter_Boolean_app.
  change (filter_Boolean (sectionText L :: map sectionText Ls))
    with (if truthy (sectionText L)
          then sectionText L :: filter_Boolean (map sectionText Ls)
          else filter_Boolean (map sectionText Ls)).
  destruct (truthy (sectionText L)) eqn:Ht.
  - assert (Hne : filter_Boolean L <> []).
    { intros Hnil. apply sectionText_truthy in Hnil. congruence. }
    split.
    + destruct (filter_Boolean (concat Ls)) as [|y r] eqn:Hc.
      * rewrite app_nil_r. rewrite (proj1 IHnil eq_refl). reflexivity.
      * rewrite join_app by (exact Hne || discriminate).
        rewrite IHjoin.
        destruct (filter_Boolean (map sectionText Ls)) as [|z s] eqn:Hm.
        -- discriminate (proj2 IHnil eq_refl).
        -- reflexivity.
    + split; [|discriminate]. intros Hnil.
      apply app_eq_nil in Hnil as [Hnil _]. contradiction.
  - apply sectionText_truthy in Ht. rewrite Ht. simpl. now split.
Qed.

Lemma filter_Boolean_idem (ls : list string) :
  filter_Boolean (filter_Boolean ls) = filter_Boolean ls.
Proof.
  induction ls as [|x r IH]; [reflexivity|]. unfold filter_Boolean in *. simpl.
  destruct (truthy x) eqn:Hx; simpl; [rewrite Hx; now f_equal | exact IH].
Qed.

Lemma filter_Boolean_id (ls : list string) :
  Forall (fun l => truthy l = true) ls -> filter_Boolean ls = ls.
Proof.
  induction 1 as [|x r Hx _ IH]; [reflexivity|].
  unfold filter_Boolean in *. simpl. rewrite Hx. now f_equal.
Qed.

(** Entries that lead a section lead its text. *)
Lemma constants_lead (C X : list string) :
  Forall (fun l => truthy l = true) C ->
  exists rest,
    join nl (filter_Boolean (filter_Boolean (C ++ X) ++ [""]))
    = join nl C ++ rest.
Proof.
  intros HC. rewrite filter_Boolean_app, filter_Boolean_idem.
  change (filter_Boolean [""]) with (@nil string). rewrite app_nil_r.
  rewrite filter_Boolean_app, (filter_Boolean_id C HC).
  apply join_prefix.
Qed.

Section Sections.

Variable SILENT_REPLY_TOKEN : string.
Variable listDeliverableMessageChannels : list string.
Variable readFileSync : string -> ReadResult.
Variable path_join : string -> string -> string.
Variable renderString : string -> TemplateContext.t -> Completion.

Local Abbreviation build :=
  (buildAgentSystemPrompt SILENT_REPLY_TOKEN listDeliverableMessageChannels
     readFileSync path_join renderString).
Local Abbreviation allLines :=
  (lines SILENT_REPLY_TOKEN listDeliverableMessageChannels).
Local Abbreviation allSections :=
  (sections SILENT_REPLY_TOKEN listDeliverableMessageChannels).

Lemma lines_sections (p : Params.t) : allLines p = concat (allSections p).
Proof.
  unfold lines, initialLines, sections. cbn [concat].
  rewrite <- !app_assoc, app_nil_r. reflexivity.
Qed.

(** X12: the prompt of the default path is the texts of its twenty-six sections
    in their fixed order, from the identity line to the runtime section,
    joined by single newlines; a section without text is skipped. *)
Theorem prompt_is_sections_in_order (p : Params.t) :
  noOverride readFileSync path_join p ->
  promptMode p <> none ->
  build p
  = Returns (join nl (filter_Boolean (map sectionText (allSections p))))
  /\ allLines p = concat (allSections p)
  /\ List.length (allSections p) = 26
  /\ hd_error (allSections p) = Some [ IDENTITY_LINE; "" ]
  /\ last (allSections p) []
     = buildRuntimeSection
         (buildRuntimeLine (runtimeInfo p) (runtimeChannel p)
            (runtimeCapabilities p) (Params.defaultThinkLevel p))
         (reasoningLevel p) (Params.defaultThinkLevel p).
Proof.
  intros Hno Hmode. rewrite (default_path _ _ _ _ _ _ Hno).
  split; [|split; [apply lines_sections | repeat split]].
  rewrite lines_sections, (proj1 (join_sections _)).
  destruct (promptMode p); [reflexivity | reflexivity | contradiction].
Qed.

(** A section is in the prompt as one piece. *)
Lemma section_shown (p : Params.t) (section : list string) :
  noOverride readFileSync path_join p ->
  promptMode p <> none ->
  In section (allSections p) ->
  exists prompt, build p = Returns prompt
                 /\ includes prompt (sectionText section) = true.
Proof.
  intros Hno Hmode Hin. rewrite (default_path _ _ _ _ _ _ Hno).
  exists (join nl (filter_Boolean (allLines p))). split.
  - destruct (promptMode p); [reflexivity | reflexivity | contradiction].
  - apply includes_occurs, block_occurs. rewrite lines_sections.
    apply in_split in Hin as [before [after ->]].
    rewrite concat_app. cbn [concat]. now exists (concat before), (concat after).
Qed.

(** X13: an enabled sandbox is announced in every mode of the default path, the
    minimal one of sub-agents included, with its workspace when one is
    given. *)
Theorem sandbox_notice_shown (p : Params.t) (s : SandboxInfo.t) :
  noOverride readFileSync path_join p ->
  promptMode p <> none ->
  Params.sandboxInfo p = Some s ->
  SandboxInfo.enabled s = true ->
  exists prompt,
    build p = Returns prompt
    /\ includes prompt (join nl SANDBOX_NOTICE) = true
    /\ (forall dir, SandboxInfo.workspaceDir s = Some dir -> dir <> "" ->
                    includes prompt
                      (join nl SANDBOX_NOTICE ++ nl ++ "Sandbox workspace: " ++ dir)
                    = true).
Proof.
  intros Hno Hmode Hs Hen.
  destruct (section_shown p (buildSandboxSection s) Hno Hmode)
    as [prompt [Hprompt Hshown]].
  { unfold sections. rewrite Hs. cbn [orElse]. do 11 right. now left. }
  exists prompt. split; [exact Hprompt|].
  apply includes_occurs in Hshown.
  unfold sectionText, buildSandboxSection in Hshown. rewrite Hen in Hshown.
  cbn [negb] in Hshown. split.
  - apply includes_occurs. apply occurs_trans with (2 := Hshown).
    match type of Hshown with
    | occurs (join nl (filter_Boolean (filter_Boolean (?C ++ ?X) ++ [""]))) _ =>
        destruct (constants_lead C X) as [rest ->]; [repeat constructor|]
    end.
    apply occurs_app_l, occurs_refl.
  - intros dir Hdir Hne. apply truthy_true in Hne.
    apply includes_occurs. apply occurs_trans with (2 := Hshown).
    rewrite Hdir. cbn [truthy_opt orElse]. rewrite Hne. cbn [pushIf].
    match goal with
    | |- occurs _ (join nl (filter_Boolean
                     (filter_Boolean (?C ++ [?w] ++ ?X) ++ [""]))) =>
        rewrite (app_assoc C [w] X);
        destruct (constants_lead (C ++ [w]) X) as [rest ->];
          [repeat constructor|]
    end.
    apply occurs_app_l.
    unfold SANDBOX_NOTICE. cbn [app]. rewrite !join_cons_cons, !append_assoc.
    apply occurs_refl.
Qed.

(** A run of entries of a section is in the prompt as one piece. *)
Lemma block_shown (p : Params.t) (section entries : list string) :
  noOverride readFileSync path_join p ->
  promptMode p <> none ->
  In section (allSections p) ->
  block entries section ->
  exists prompt, build p = Returns prompt
                 /\ includes prompt (sectionText entries) = true.
Proof.
  intros Hno Hmode Hin [A [C Hsection]]. rewrite (default_path _ _ _ _ _ _ Hno).
  exists (join nl (filter_Boolean (allLines p))). split.
  - destruct (promptMode p); [reflexivity | reflexivity | contradiction].
  - apply includes_occurs, block_occurs. rewrite lines_sections.
    apply in_split in Hin as [before [after ->]].
    rewrite concat_app. cbn [concat]. subst section.
    exists (concat before ++ A)%list, (C ++ concat after)%list.
    now rewrite <- !app_assoc.
Qed.

(** X14: the context files are in the prompt in every mode of the default path,
    in the order of the caller and as one piece: each heading "## path" is
    followed by the content of its file, and a file without content shows
    its heading alone. *)
Theorem contextFiles_shown_in_order (p : Params.t) (files : list ContextFile.t) :
  noOverride readFileSync path_join p ->
  promptMode p <> none ->
  Params.contextFiles p = Some files ->
  exists prompt,
    build p = Returns prompt
    /\ includes prompt
         (join nl
            (flat_map
               (fun f => if truthy (ContextFile.content f)
                         then [ "## " ++ ContextFile.path f; ContextFile.content f ]
                         else [ "## " ++ ContextFile.path f ])
               files)) = true.
Proof.
  intros Hno Hmode Hfiles.
  destruct (block_shown p (buildProjectContextSection (Some files))
              (flat_map (fun file => [ "## " ++ ContextFile.path file; "";
                                       ContextFile.content file; "" ]) files)
              Hno Hmode)
    as [prompt [Hprompt Hshown]].
  - unfold sections. rewrite Hfiles. do 18 right. now left.
  - destruct files as [|f0 fs]; [apply block_last|].
    unfold buildProjectContextSection. do 3 apply block_skip. apply block_last.
  - exists prompt. split; [exact Hprompt|].
    replace (join nl (flat_map _ files))
      with (sectionText
              (flat_map (fun file => [ "## " ++ ContextFile.path file; "";
                                       ContextFile.content file; "" ]) files));
      [exact Hshown|].
    unfold sectionText. f_equal. clear.
    induction files as [|f fs IH]; [reflexivity|].
    cbn [flat_map]. rewrite filter_Boolean_app, IH.
    unfold filter_Boolean at 1. cbn [filter truthy append].
    now destruct (truthy (ContextFile.content f)).
Qed.

Lemma filter_Boolean_blank_iff (names : list string) :
  filter_Boolean (map trim names) = []
  <-> Forall (fun name => trim name = "") names.
Proof.
  split; [|apply filter_Boolean_blank].
  induction names as [|x r IH]; [constructor|].
  unfold filter_Boolean in *. simpl. destruct (truthy (trim x)) eqn:Hx.
  - discriminate.
  - intros H. constructor; [now apply truthy_false | now apply IH].
Qed.

(** X15: the User Identity section is left out in minimal mode and when every
    owner number is blank; otherwise full mode shows the numbers that are
    not blank, trimmed, in the caller's order. *)
Theorem userIdentity_gating (p : Params.t) :
  (buildUserIdentitySection (ownerLine p) (isMinimal p) = []
   <-> isMinimal p = true
       \/ Forall (fun n => trim n = "") (orElse (Params.ownerNumbers p) []))
  /\ (isMinimal p = false -> ownerNumbers p <> [] ->
      buildUserIdentitySection (ownerLine p) (isMinimal p)
      = [ "## User Identity";
          "Owner numbers: " ++ join ", " (ownerNumbers p)
          ++ ". Treat messages from these numbers as the user.";
          "" ]).
Proof.
  unfold buildUserIdentitySection, ownerLine.
  rewrite <- filter_Boolean_blank_iff. fold (ownerNumbers p).
  destruct (ownerNumbers p) as [|n r]; cbn [List.length Nat.ltb Nat.leb truthy_opt negb orb].
  - split; [split; auto | intros _ H; contradiction].
  - cbn [truthy append orElse negb orb]. destruct (isMinimal p); split.
    + split; auto.
    + discriminate.
    + split; [discriminate | intros [H|H]; discriminate].
    + reflexivity.
Qed.

(** X16: in full mode the Heartbeats section always shows; a heartbeat prompt
    that is absent or blank shows as "(configured)", another one trimmed. *)
Theorem heartbeat_prompt_shown (p : Params.t) :
  noOverride readFileSync path_join p ->
  promptMode p = full ->
  exists prompt,
    build p = Returns prompt
    /\ includes prompt
         ("## Heartbeats" ++ nl ++ "Heartbeat prompt: "
          ++ match Params.heartbeatPrompt p with
             | Some raw => if truthy (trim raw) then trim raw else "(configured)"
             | None => "(configured)"
             end
          ++ nl ++ "If you receive a heartbeat poll") = true.
Proof.
  intros Hno Hmode.
  assert (Hne : promptMode p <> none) by (rewrite Hmode; discriminate).
  assert (Hmin : isMinimal p = false) by (unfold isMinimal; now rewrite Hmode).
  destruct (section_shown p (buildHeartbeatsSection (heartbeatPrompt p) false)
              Hno Hne) as [prompt [Hprompt Hshown]].
  { unfold sections. rewrite Hmin. cbn [negb]. do 24 right. now left. }
  exists prompt. split; [exact Hprompt|].
  apply includes_occurs. apply includes_occurs in Hshown.
  apply occurs_trans with (2 := Hshown).
  unfold sectionText, buildHeartbeatsSection, heartbeatPrompt.
  set (shown := match Params.heartbeatPrompt p with
                | Some raw => if truthy (trim raw) then trim raw else "(configured)"
                | None => "(configured)"
                end).
  assert (Hline :
    (if truthy_opt (option_map trim (Params.heartbeatPrompt p))
     then "Heartbeat prompt: " ++ orElse (option_map trim (Params.heartbeatPrompt p)) ""
     else "Heartbeat prompt: (configured)")
    = "Heartbeat prompt: " ++ shown).
  { unfold shown. destruct (Params.heartbeatPrompt p) as [raw|];
      cbn [option_map truthy_opt orElse]; [|reflexivity].
    now destruct (truthy (trim raw)). }
  cbn [negb]. rewrite Hline.
  match goal with
  | |- occurs _ (join nl (filter_Boolean (?h :: ?l :: ?c :: ?rest))) =>
      change (h :: l :: c :: rest) with ([h; l; c] ++ rest)%list;
      rewrite filter_Boolean_app;
      rewrite (filter_Boolean_id [h; l; c]) by (repeat constructor);
      destruct (join_prefix nl [h; l; c] (filter_Boolean rest)) as [tail ->]
  end.
  apply occurs_app_l. rewrite !join_cons_cons.
  change (join nl [?c]) with c.
  exists "", " (a user message matching the heartbeat prompt above), and there is nothing that needs attention, reply exactly:".
  change ("" ++ ?x) with x. rewrite !append_assoc. reflexivity.
Qed.

Lemma toolLine_truthy (p : Params.t) (tool : string) :
  truthy (toolLine p tool) = true.
Proof. unfold toolLine. now destruct (truthy_opt _). Qed.

Lemma toolLines_truthy (p : Params.t) :
  toolLines p <> [] -> truthy (join nl (toolLines p)) = true.
Proof.
  rewrite toolLines_listedTools. destruct (listedTools p) as [|t ts]; [contradiction|].
  intros _. cbn [map]. pose proof (toolLine_truthy p t) as Ht.
  destruct (toolLine p t) as [|c x]; [discriminate|].
  now destruct (map (toolLine p) ts).
Qed.

Lemma tooling_section_listing (toolLines : list string) (exec process : string) :
  toolLines <> [] ->
  buildToolingSection toolLines exec process false
  = [ "## Tooling";
      "Tool availability (filtered by policy):";
      "Tool names are case-sensitive. Call tools exactly as listed.";
      join nl toolLines;
      "TOOLS.md does not control tool availability; it is user guidance for how to use external tools.";
      "If a task is more complex or takes longer, spawn a sub-agent. It will do the work for you and ping you when it's done. You can always check up on it.";
      "" ].
Proof. destruct toolLines; [contradiction | reflexivity]. Qed.

Lemma sectionText_three (a b c : string) :
  truthy a = true -> truthy b = true -> truthy c = true ->
  sectionText [a; b; c] = a ++ nl ++ b ++ nl ++ c.
Proof.
  intros Ha Hb Hc. unfold sectionText, filter_Boolean. cbn [filter].
  now rewrite Ha, Hb, Hc.
Qed.

(** X17: what a template gets as [toolList] is what the Tooling section of the
    default prompt lists, line for line, whenever there is a tool to
    list. *)
Theorem toolList_is_the_default_listing (p : Params.t) :
  noOverride readFileSync path_join p ->
  promptMode p = full ->
  toolLines p <> [] ->
  exists prompt,
    build p = Returns prompt
    /\ includes prompt
         ("Tool names are case-sensitive. Call tools exactly as listed." ++ nl
          ++ TemplateContext.toolList
               (templateContext listDeliverableMessageChannels p)
          ++ nl
          ++ "TOOLS.md does not control tool availability; it is user guidance for how to use external tools.")
       = true.
Proof.
  intros Hno Hmode Hlines.
  assert (Hne : promptMode p <> none) by (rewrite Hmode; discriminate).
  assert (Hmin : isMinimal p = false) by (unfold isMinimal; now rewrite Hmode).
  pose proof (toolLines_truthy p Hlines) as Htruthy.
  destruct (block_shown p
              (buildToolingSection (toolLines p) (execToolName p)
                 (processToolName p) (isMinimal p))
              [ "Tool names are case-sensitive. Call tools exactly as listed.";
                join nl (toolLines p);
                "TOOLS.md does not control tool availability; it is user guidance for how to use external tools." ]
              Hno Hne) as [prompt [Hprompt Hshown]].
  - unfold sections. right. now left.
  - rewrite Hmin, (tooling_section_listing _ _ _ Hlines).
    now exists [ "## Tooling"; "Tool availability (filtered by policy):" ],
      [ "If a task is more complex or takes longer, spawn a sub-agent. It will do the work for you and ping you when it's done. You can always check up on it.";
        "" ].
  - exists prompt. split; [exact Hprompt|].
    rewrite sectionText_three in Hshown by (exact Htruthy || reflexivity).
    exact Hshown.
Qed.

End Sections.

Lemma prompt_is_sections_in_order_witness :
  buildAgentSystemPrompt "NO_REPLY" [] noFile joinSegments literalRender testParams
  = Returns (join nl (filter_Boolean (map sectionText (sections "NO_REPLY" [] testParams)))).
Proof.
  apply (prompt_is_sections_in_order "NO_REPLY" [] noFile joinSegments literalRender
           testParams).
  - reflexivity.
  - discriminate.
Defined.

Lemma sandbox_notice_shown_witness :
  exists prompt,
    buildAgentSystemPrompt "NO_REPLY" [] noFile joinSegments literalRender
      sandboxedParams = Returns prompt
    /\ includes prompt (join nl SANDBOX_NOTICE ++ nl ++ "Sandbox workspace: /sandbox/ws")
       = true.
Proof.
  destruct (sandbox_notice_shown "NO_REPLY" [] noFile joinSegments literalRender
              sandboxedParams
              (SandboxInfo.mk true (Some "/sandbox/ws") None None None None None None))
    as [prompt [Hprompt [_ Hdir]]].
  - reflexivity.
  - discriminate.
  - reflexivity.
  - reflexivity.
  - exists prompt. split; [exact Hprompt|]. apply Hdir; [reflexivity | discriminate].
Defined.

Lemma contextFiles_shown_in_order_witness :
  exists prompt,
    buildAgentSystemPrompt "NO_REPLY" [] noFile joinSegments literalRender
      (withContextFiles [ ContextFile.mk "README.md" "Hello World";
                          ContextFile.mk "EMPTY.md" "";
                          ContextFile.mk "CONFIG.md" "Config here" ]
         (withMode minimal testParams)) = Returns prompt
    /\ includes prompt
         ("## README.md" ++ nl ++ "Hello World" ++ nl ++ "## EMPTY.md" ++ nl
          ++ "## CONFIG.md" ++ nl ++ "Config here") = true.
Proof.
  apply (contextFiles_shown_in_order "NO_REPLY" [] noFile joinSegments literalRender
           (withContextFiles [ ContextFile.mk "README.md" "Hello World";
                               ContextFile.mk "EMPTY.md" "";
                               ContextFile.mk "CONFIG.md" "Config here" ]
              (withMode minimal testParams))
           [ ContextFile.mk "README.md" "Hello World";
             ContextFile.mk "EMPTY.md" "";
             ContextFile.mk "CONFIG.md" "Config here" ]).
  - reflexivity.
  - discriminate.
  - reflexivity.
Defined.

(** A prompt given with a no-break space before it and a space after it. *)
Lemma heartbeat_prompt_shown_witness :
  exists prompt,
    buildAgentSystemPrompt "NO_REPLY" [] noFile joinSegments literalRender
      (withHeartbeatPrompt (nbsp ++ "ping ") testParams) = Returns prompt
    /\ includes prompt
         ("## Heartbeats" ++ nl ++ "Heartbeat prompt: ping" ++ nl
          ++ "If you receive a heartbeat poll") = true.
Proof.
  apply (heartbeat_prompt_shown "NO_REPLY" [] noFile joinSegments literalRender
           (withHeartbeatPrompt (nbsp ++ "ping ") testParams)); reflexivity.
Defined.

Lemma toolList_is_the_default_listing_witness :
  exists prompt,
    buildAgentSystemPrompt "NO_REPLY" [] noFile joinSegments literalRender
      (withToolNames [ "Read"; "my_tool" ] testParams) = Returns prompt
    /\ includes prompt
         ("Tool names are case-sensitive. Call tools exactly as listed." ++ nl
          ++ "- Read: Read file contents" ++ nl ++ "- my_tool" ++ nl
          ++ "TOOLS.md does not control tool availability; it is user guidance for how to use external tools.")
       = true.
Proof.
  apply (toolList_is_the_default_listing "NO_REPLY" [] noFile joinSegments
           literalRender (withToolNames [ "Read"; "my_tool" ] testParams)).
  - reflexivity.
  - reflexivity.
  - discriminate.
Defined.

(** ** Inputs that are absent or empty (C7) *)

Lemma allBlank_Forall (o : option (list string)) :
  allBlank o = true -> Forall (fun s => trim s = "") (orElse o []).
Proof.
  unfold allBlank. rewrite forallb_forall, Forall_forall. intros H s Hs.
  apply H in Hs. apply negb_true_iff in Hs. now apply truthy_false.
Qed.

Lemma blank_local (o : option string) :
  blank o = true ->
  truthy_opt (option_map trim o) = false
  /\ truthy_opt (option_map trim (option_map trim o)) = false.
Proof.
  unfold blank. intros H. apply negb_true_iff in H. split; [exact H|].
  destruct o as [s|]; [|reflexivity]. cbn [option_map truthy_opt] in *.
  apply truthy_false in H. now rewrite H.
Qed.

(** Each of these sections is empty when its input is absent or empty. *)
Lemma inputGatedSections_empty (p : Params.t) :
  Forall (fun gated => fst gated = true -> snd gated = []) (inputGatedSections p).
Proof.
  assert (Htools : allBlank (Params.toolNames p) = true -> availableTools p = []).
  { intros H. apply allBlank_Forall in H.
    unfold availableTools, normalizedTools.
    now rewrite (noToolNames_canonical p H). }
  unfold inputGatedSections.
  repeat (apply Forall_cons; [cbn [fst snd]; intros H|]); [..|apply Forall_nil].
  - unfold hasGateway. now rewrite (Htools H).
  - destruct (Params.modelAliasLines p) as [[|a r]|];
      [reflexivity | discriminate | reflexivity].
  - unfold buildSkillsSection, skillsPrompt.
    rewrite (proj2 (blank_local _ H)). now destruct (isMinimal p).
  - unfold buildMemorySection. rewrite (Htools H). now destruct (isMinimal p).
  - unfold buildDocsSection. now rewrite (proj1 (blank_local _ H)).
  - destruct (Params.sandboxInfo p); [discriminate | reflexivity].
  - apply allBlank_Forall in H.
    unfold ownerLine, ownerNumbers. now rewrite (filter_Boolean_blank _ H).
  - unfold buildTimeSection, userTimezone. now rewrite (proj1 (blank_local _ H)).
  - unfold buildVoiceSection. rewrite (proj1 (blank_local _ H)).
    now destruct (isMinimal p).
  - destruct (Params.contextFiles p) as [[|f r]|];
      [reflexivity | discriminate | reflexivity].
  - unfold buildExtraSystemPromptSection, extraSystemPrompt.
    now rewrite (proj1 (blank_local _ H)).
  - unfold extraSystemPrompt. now rewrite (proj1 (blank_local _ H)).
  - destruct (Params.reactionGuidance p); [discriminate | reflexivity].
  - unfold reasoningHint. apply negb_true_iff in H. now rewrite H.
Qed.

Section AbsentInputs.

Variable SILENT_REPLY_TOKEN : string.
Variable listDeliverableMessageChannels : list string.
Variable readFileSync : string -> ReadResult.
Variable path_join : string -> string -> string.
Variable renderString : string -> TemplateContext.t -> Completion.

Local Abbreviation build :=
  (buildAgentSystemPrompt SILENT_REPLY_TOKEN listDeliverableMessageChannels
     readFileSync path_join renderString).
Local Abbreviation allLines :=
  (lines SILENT_REPLY_TOKEN listDeliverableMessageChannels).
Local Abbreviation allSections :=
  (sections SILENT_REPLY_TOKEN listDeliverableMessageChannels).

(** They are sections of the prompt. *)
Lemma inputGatedSections_incl (p : Params.t) :
  incl (map snd (inputGatedSections p)) (allSections p).
Proof.
  intros section Hin. unfold inputGatedSections in Hin. cbn [map snd] in Hin.
  unfold sections.
  destruct Hin as [<-|[<-|[<-|[<-|[<-|[<-|[<-|[<-|[<-|[<-|[<-|[<-|[<-|[<-|[]]]]]]]]]]]]]]].
  - do 5 right. left. reflexivity.
  - do 6 right. left. reflexivity.
  - do 7 right. left. reflexivity.
  - do 8 right. left. reflexivity.
  - do 10 right. left. reflexivity.
  - do 11 right. left. reflexivity.
  - do 12 right. left. reflexivity.
  - do 13 right. left. reflexivity.
  - do 17 right. left. reflexivity.
  - do 18 right. left. reflexivity.
  - do 19 right. left. reflexivity.
  - do 20 right. left. reflexivity.
  - do 21 right. left. reflexivity.
  - do 22 right. left. reflexivity.
Qed.

(** The text of a section is in the joined lines. *)
Lemma section_occurs (p : Params.t) (section : list string) :
  In section (allSections p) ->
  includes (join nl (filter_Boolean (allLines p))) (sectionText section) = true.
Proof.
  intros Hin. apply includes_occurs, block_occurs.
  rewrite (lines_sections SILENT_REPLY_TOKEN listDeliverableMessageChannels p).
  apply in_split in Hin as [before [after ->]].
  rewrite concat_app. cbn [concat]. now exists (concat before), (concat after).
Qed.

(** C7 (amended): a lookup of SYSTEM.md that fails, for whatever reason,
    surfaces no error: the call returns the prompt of the default path,
    which is the texts of its sections joined.  The sections that depend on
    a skills prompt, a documentation path, a sandbox, owner numbers, a time
    zone, a voice hint, context files, an extra prompt, reaction guidance, a
    reasoning-tag hint, model aliases and, for Self-Update and Memory
    Recall, tool names are sections of that prompt, and each is empty when
    its input is absent or empty.  Tool names and a heartbeat prompt that
    are absent or blank do not empty their section: in full mode the
    Tooling section shows its fallback list and the Heartbeats section its
    line for a prompt that is not given. *)
Theorem C7_lookup_failure_is_no_override (p : Params.t) (code : string) :
  readFileSync (path_join (Params.workspaceDir p) "SYSTEM.md") = ReadError code ->
  exists prompt,
    build p = Returns prompt
    /\ prompt = match promptMode p with
                | none => IDENTITY_LINE
                | _ => join nl (filter_Boolean (map sectionText (allSections p)))
                end
    /\ Forall (fun gated => fst gated = true -> snd gated = [])
              (inputGatedSections p)
    /\ incl (map snd (inputGatedSections p)) (allSections p)
    /\ (promptMode p = full ->
        (allBlank (Params.toolNames p) = true ->
         includes prompt
           (sectionText (buildToolingSection [] "exec" "process" false)) = true)
        /\ (blank (Params.heartbeatPrompt p) = true ->
            includes prompt (sectionText (buildHeartbeatsSection None false))
            = true)).
Proof.
  intros Hread.
  assert (Hno : noOverride readFileSync path_join p)
    by (eapply read_error_noOverride; exact Hread).
  rewrite (default_path _ _ _ _ _ _ Hno).
  assert (Hjoin : join nl (filter_Boolean (allLines p))
                  = join nl (filter_Boolean (map sectionText (allSections p)))).
  { rewrite (lines_sections SILENT_REPLY_TOKEN listDeliverableMessageChannels p).
    apply join_sections. }
  exists (match promptMode p with
          | none => IDENTITY_LINE
          | _ => join nl (filter_Boolean (allLines p))
          end).
  split; [now destruct (promptMode p)|].
  split; [rewrite Hjoin; now destruct (promptMode p)|].
  split; [apply inputGatedSections_empty|].
  split; [apply inputGatedSections_incl|].
  intros Hfull. rewrite Hfull.
  assert (Hmin : isMinimal p = false) by (unfold isMinimal; now rewrite Hfull).
  split.
  - intros Hnames. apply allBlank_Forall in Hnames.
    destruct (noToolNames_toolLines p Hnames) as [Hlines [Hexec Hprocess]].
    apply section_occurs. rewrite <- Hlines, <- Hexec, <- Hprocess, <- Hmin.
    unfold sections. right. left. reflexivity.
  - intros Hblank. apply section_occurs.
    assert (Hsection :
      (if negb (isMinimal p)
       then buildHeartbeatsSection (heartbeatPrompt p) (isMinimal p) else [])
      = buildHeartbeatsSection None false).
    { rewrite Hmin. cbn [negb]. unfold buildHeartbeatsSection, heartbeatPrompt.
      now rewrite (proj1 (blank_local _ Hblank)). }
    rewrite <- Hsection. unfold sections. do 24 right. left. reflexivity.
Qed.

End AbsentInputs.

(** C7 (counterexample): a call with no tool names and no heartbeat prompt
    still has its Tooling section, with the fallback list, and its
    Heartbeats section. *)
Lemma C7_absent_input_counterexample :
  Params.toolNames (bareParams "/w") = None
  /\ Params.heartbeatPrompt (bareParams "/w") = None
  /\ exists prompt,
       buildAgentSystemPrompt "NO_REPLY" [] noFile joinSegments literalRender
         (bareParams "/w") = Returns prompt
       /\ forallb (includes prompt)
            [ "## Tooling"; "- grep: search file contents for patterns";
              "## Heartbeats"; "Heartbeat prompt: (configured)" ] = true.
Proof.
  split; [reflexivity|]. split; [reflexivity|].
  eexists. split; vm_compute; reflexivity.
Qed.

Lemma C7_witness :
  exists prompt,
    buildAgentSystemPrompt "NO_REPLY" [] deniedFile joinSegments literalRender
      testParams = Returns prompt
    /\ includes prompt "Heartbeat prompt: (configured)" = true.
Proof.
  destruct (C7_lookup_failure_is_no_override "NO_REPLY" [] deniedFile joinSegments
              literalRender testParams "EACCES" eq_refl)
    as [prompt [Hprompt [_ [_ [_ Hshown]]]]].
  exists prompt. split; [exact Hprompt|].
  destruct (Hshown eq_refl) as [_ Hheartbeat].
  apply includes_occurs.
  apply occurs_trans with (sectionText (buildHeartbeatsSection None false)).
  - apply includes_occurs. vm_compute. reflexivity.
  - apply includes_occurs. apply Hheartbeat. reflexivity.
Defined.
